(** * temp_parser.py: a shallow embedding of the laptop scraper

    The development follows the source file top to bottom:

    - [Py]       the Python built-ins the parser leans on ([str.split],
                 [str.replace], [int], [float], negative list indexing);
    - [Soup]     the parsed markup ([bs4.Tag]) with [select], [select_one],
                 [.text] and attribute lookup;
    - [Http]     the [Retry] configuration and the session's answers;
    - [Browser]  the Selenium driver as a small state machine;
    - [Scraper]  the functions of temp_parser.py themselves;
    - [Spec]     the vocabulary of the statements;
    - [Fixtures] sample markup, pages and sites to run the functions on;
    - the theorems, one group per function.

    Conventions.  A Python [str] is a [string] whose characters are read as
    code points below 256.  A Python [int] is a [Z].  A Python [float] is the
    exact rational its literal denotes (type [pyfloat]); rounding to binary64
    is not modelled.  A Python exception is a value [Raise e] of [result]. *)

From Stdlib Require Import ZArith QArith List Ascii String Bool Lia.
From Stdlib Require Import DecimalString DecimalNat DecimalFacts.
From stdpp Require Import base option list gmap strings.

Set Warnings "-register-all".

Close Scope Q_scope.
Open Scope string_scope.
Open Scope list_scope.
Open Scope Z_scope.

(** ** Exceptions and the error monad *)

(** The exception classes that the modelled code can meet.  All of them are
    subclasses of [Exception]; [RequestException] is the one class that
    temp_parser.py catches separately. *)
Inductive exn : Type :=
  | RequestException      (* requests: connection errors, retries used up, HTTP 4xx/5xx *)
  | TypeError             (* subscripting None *)
  | AttributeError        (* attribute access on None *)
  | KeyError              (* missing tag attribute *)
  | IndexError            (* list index out of range *)
  | ValueError            (* int() / float() on a bad literal *)
  | WebDriverException    (* navigation failure *)
  | NoSuchElementException
  | StaleElementReferenceException.

Inductive result (A : Type) : Type :=
  | Ok (a : A)
  | Raise (e : exn).
Arguments Ok {A} a.
Arguments Raise {A} e.

Definition rbind {A B} (r : result A) (k : A -> result B) : result B :=
  match r with
  | Ok a => k a
  | Raise e => Raise e
  end.

Definition is_ok {A} (r : result A) : bool :=
  match r with Ok _ => true | Raise _ => false end.

Definition raises {A} (r : result A) : Prop := exists e, r = Raise e.

(** [of_option e o]: the value of [o], or exception [e] when there is none. *)
Definition of_option {A} (e : exn) (o : option A) : result A :=
  match o with
  | Some a => Ok a
  | None => Raise e
  end.

Declare Scope result_scope.
Delimit Scope result_scope with result.
Notation "x <- c1 ;; c2" := (rbind c1 (fun x => c2))
  (at level 100, c1 at next level, right associativity) : result_scope.

(** ** Python built-ins *)

Module Py.

Definition code (c : ascii) : nat := nat_of_ascii c.

(** [str.isspace] on one character (code points below 256). *)
Definition isspace (c : ascii) : bool :=
  let n := code c in
  ((9 <=? n) && (n <=? 13) || (28 <=? n) && (n <=? 32)
   || (n =? 133) || (n =? 160))%nat.

(** White space as [int] and [float] see it: the literal is first brought
    to ASCII (white space above 126 becomes a blank, ASCII is kept), then
    the C [isspace] characters are skipped. *)
Definition isspace_num (c : ascii) : bool :=
  let n := code c in
  ((9 <=? n) && (n <=? 13) || (n =? 32) || (n =? 133) || (n =? 160))%nat.

Definition isdigit (c : ascii) : bool :=
  let n := code c in ((48 <=? n) && (n <=? 57))%nat.

Definition digit_val (c : ascii) : Z := Z.of_nat (code c) - 48.

Definition chars (s : string) : list ascii := list_ascii_of_string s.

(** [s.replace(old, "")] for a one-character [old]. *)
Fixpoint remove_char (old : ascii) (s : string) : string :=
  match s with
  | EmptyString => EmptyString
  | String c r =>
      if Ascii.eqb c old then remove_char old r
      else String c (remove_char old r)
  end.

(** [s.split()]: the maximal runs of non-space characters, in order.
    [cur] is the run being read, reversed. *)
Fixpoint split_go (cur : list ascii) (l : list ascii) : list string :=
  let flush := match cur with
               | [] => []
               | _ => [string_of_list_ascii (rev cur)]
               end in
  match l with
  | [] => flush
  | c :: r =>
      if isspace c then flush ++ split_go [] r
      else split_go (c :: cur) r
  end.

Definition split (s : string) : list string := split_go [] (chars s).

(** [l[0]]. *)
Definition index0 {A} (l : list A) : result A :=
  of_option IndexError (head l).

(** [l[-2]]: the element before the last; [IndexError] when [l] has fewer
    than two elements. *)
Definition index_neg2 {A} (l : list A) : result A :=
  if (length l <? 2)%nat then Raise IndexError
  else of_option IndexError (l !! (length l - 2)%nat).

(** Strip as the number parsers do. *)
Fixpoint lstrip_num (l : list ascii) : list ascii :=
  match l with
  | c :: r => if isspace_num c then lstrip_num r else l
  | [] => []
  end.

Definition strip_num (l : list ascii) : list ascii :=
  rev (lstrip_num (rev (lstrip_num l))).

(** Underscores in a numeric literal: allowed only between two digits, and
    dropped.  [prev] tells whether the previous character was a digit. *)
Fixpoint drop_underscores (prev : bool) (l : list ascii) : option (list ascii) :=
  match l with
  | [] => Some []
  | c :: r =>
      if Ascii.eqb c "_"%char then
        match r with
        | d :: _ => if prev && isdigit d then drop_underscores false r else None
        | [] => None
        end
      else option_map (cons c) (drop_underscores (isdigit c) r)
  end.

(** The value of a run of digits read left to right after [acc]. *)
Fixpoint digits_val (acc : Z) (l : list ascii) : Z :=
  match l with
  | [] => acc
  | c :: r => digits_val (10 * acc + digit_val c) r
  end.

Definition all_digits (l : list ascii) : bool := forallb isdigit l.

(** An optional sign: [(negative, rest)]. *)
Definition take_sign (l : list ascii) : bool * list ascii :=
  match l with
  | c :: r =>
      if Ascii.eqb c "-"%char then (true, r)
      else if Ascii.eqb c "+"%char then (false, r)
      else (false, l)
  | [] => (false, [])
  end.

Definition apply_sign (neg : bool) (z : Z) : Z := if neg then - z else z.

(** [int(s)] in base 10: [None] stands for [ValueError]. *)
Definition int_of_chars (l : list ascii) : option Z :=
  match drop_underscores false (strip_num l) with
  | None => None
  | Some l1 =>
      let (neg, ds) := take_sign l1 in
      match ds with
      | [] => None
      | _ => if all_digits ds then Some (apply_sign neg (digits_val 0 ds))
             else None
      end
  end.

Definition int (s : string) : result Z :=
  of_option ValueError (int_of_chars (chars s)).

(** [str(n)] for a natural number: its decimal digits. *)
Definition str (n : nat) : string := NilZero.string_of_uint (Nat.to_uint n).

(** The characters of a decimal numeral, most significant first. *)
Fixpoint uint_chars (d : Decimal.uint) : list ascii :=
  match d with
  | Decimal.Nil => []
  | Decimal.D0 d => "0"%char :: uint_chars d
  | Decimal.D1 d => "1"%char :: uint_chars d
  | Decimal.D2 d => "2"%char :: uint_chars d
  | Decimal.D3 d => "3"%char :: uint_chars d
  | Decimal.D4 d => "4"%char :: uint_chars d
  | Decimal.D5 d => "5"%char :: uint_chars d
  | Decimal.D6 d => "6"%char :: uint_chars d
  | Decimal.D7 d => "7"%char :: uint_chars d
  | Decimal.D8 d => "8"%char :: uint_chars d
  | Decimal.D9 d => "9"%char :: uint_chars d
  end.

(** *** [float] *)

(** A Python float: the exact rational of a finite literal, or one of the
    special values.  Literals too large for binary64, which Python turns
    into infinity, keep their exact value here. *)
Inductive pyfloat : Type :=
  | FNum (q : Q)
  | FInf (neg : bool)
  | FNan.

Fixpoint span_digits (l : list ascii) : list ascii * list ascii :=
  match l with
  | c :: r =>
      if isdigit c then let (ds, rest) := span_digits r in (c :: ds, rest)
      else ([], l)
  | [] => ([], [])
  end.

Definition lower (c : ascii) : ascii :=
  let n := code c in
  if ((65 <=? n) && (n <=? 90))%nat then ascii_of_nat (n + 32) else c.

(** [s.upper()] on the ASCII letters.  No other character below 256 is
    turned into G, E or T, so a comparison of the result with GET comes
    out as in Python. *)
Fixpoint upper (s : string) : string :=
  match s with
  | EmptyString => EmptyString
  | String c r =>
      let n := code c in
      String (if ((97 <=? n) && (n <=? 122))%nat then ascii_of_nat (n - 32) else c)
             (upper r)
  end.

Definition lower_is (l : list ascii) (word : string) : bool :=
  if decide (map lower l = chars word) then true else false.

(** The decimal [m * 10^scale] in lowest terms. *)
Definition decimal (m scale : Z) : Q :=
  Qred (if 0 <=? scale then Qmake (m * 10 ^ scale) 1
        else Qmake m (Z.to_pos (10 ^ (- scale)))).

(** The exponent part: nothing, or [e], an optional sign and digits. *)
Definition exponent_of (l : list ascii) : option Z :=
  match l with
  | [] => Some 0
  | c :: r =>
      if Ascii.eqb (lower c) "e"%char then
        let (neg, ds) := take_sign r in
        match ds with
        | [] => None
        | _ => if all_digits ds then Some (apply_sign neg (digits_val 0 ds))
               else None
        end
      else None
  end.

(** The finite literals: digits, an optional fraction, an optional
    exponent; at least one digit before the exponent. *)
Definition finite_of_chars (l : list ascii) : option (Z * Z) :=
  let (ip, rest) := span_digits l in
  let (fp, rest') :=
    match rest with
    | c :: r => if Ascii.eqb c "."%char then span_digits r else ([], rest)
    | [] => ([], [])
    end in
  match ip ++ fp with
  | [] => None
  | ds =>
      match exponent_of rest' with
      | Some e => Some (digits_val 0 ds, e - Z.of_nat (length fp))
      | None => None
      end
  end.

(** [float(s)]: [None] stands for [ValueError]. *)
Definition float_of_chars (l : list ascii) : option pyfloat :=
  match drop_underscores false (strip_num l) with
  | None => None
  | Some l1 =>
      let (neg, body) := take_sign l1 in
      if lower_is body "inf" || lower_is body "infinity" then Some (FInf neg)
      else if lower_is body "nan" then Some FNan
      else
        match finite_of_chars body with
        | Some (m, scale) => Some (FNum (decimal (apply_sign neg m) scale))
        | None => None
        end
  end.

Definition float (s : string) : result pyfloat :=
  of_option ValueError (float_of_chars (chars s)).

End Py.

(** ** Parsed markup: [bs4.Tag] *)

Module Soup.

(** A node of the parsed document: a piece of text or a tag with its
    attributes and children.  The [BeautifulSoup] object itself is the tag
    at the root. *)
Inductive Tag : Type :=
  | NavigableString (s : string)
  | Element (name : string) (attrs : list (string * string)) (contents : list Tag).

(** [tag.descendants]: every node below [tag], in document order. *)
Fixpoint descendants (t : Tag) : list Tag :=
  match t with
  | NavigableString _ => []
  | Element _ _ cs =>
      (fix below (l : list Tag) : list Tag :=
         match l with
         | [] => []
         | c :: r => c :: descendants c ++ below r
         end) cs
  end.

(** [tag.text]: the text pieces below [tag], joined in document order. *)
Fixpoint text (t : Tag) : string :=
  match t with
  | NavigableString s => s
  | Element _ _ cs =>
      (fix join (l : list Tag) : string :=
         match l with
         | [] => ""
         | c :: r => String.append (text c) (join r)
         end) cs
  end.

Fixpoint assoc (k : string) (l : list (string * string)) : option string :=
  match l with
  | [] => None
  | (k', v) :: r => if String.eqb k k' then Some v else assoc k r
  end.

(** [tag.attrs.get(key)]; a text node has no attributes. *)
Definition get (key : string) (t : Tag) : option string :=
  match t with
  | NavigableString _ => None
  | Element _ attrs _ => assoc key attrs
  end.

(** [tag[key]]: [KeyError] when the attribute is missing. *)
Definition getitem (t : Tag) (key : string) : result string :=
  of_option KeyError (get key t).

(** The three selector shapes temp_parser.py uses: [".cls"], ["name"] and
    ["[attr]"]. *)
Inductive selector : Type :=
  | ByClass (cls : string)
  | ByName (name : string)
  | ByAttr (attr : string).

Definition has_class (cls : string) (t : Tag) : bool :=
  match get "class" t with
  | Some v => existsb (String.eqb cls) (Py.split v)
  | None => false
  end.

Definition matches (sel : selector) (t : Tag) : bool :=
  match t with
  | NavigableString _ => false
  | Element name _ _ =>
      match sel with
      | ByClass cls => has_class cls t
      | ByName n => String.eqb n name
      | ByAttr a => match get a t with Some _ => true | None => false end
      end
  end.

(** [tag.select(sel)]: the matching descendants, in document order. *)
Definition select (sel : selector) (t : Tag) : list Tag :=
  List.filter (matches sel) (descendants t).

(** [tag.select_one(sel)]: the first match, or [None]. *)
Definition select_one (sel : selector) (t : Tag) : option Tag :=
  head (select sel t).

(** [x.text] where [x] came from [select_one]: [AttributeError] on None. *)
Definition text_of (o : option Tag) : result string :=
  match o with
  | Some t => Ok (text t)
  | None => Raise AttributeError
  end.

(** [x[key]] where [x] came from [select_one]: [TypeError] on None. *)
Definition getitem_of (o : option Tag) (key : string) : result string :=
  match o with
  | Some t => getitem t key
  | None => Raise TypeError
  end.

End Soup.

(** ** The HTTP session *)

Module Http.

(** The arguments temp_parser.py gives to [urllib3.util.retry.Retry];
    [history] counts the failed attempts recorded so far. *)
Record Retry : Type := mkRetry {
  total : Z;
  backoff_factor : Z;
  status_forcelist : list Z;
  allowed_methods : list string;
  history : nat
}.

Definition retry_strategy : Retry :=
  {| total := 3;
     backoff_factor := 1;
     status_forcelist := [429; 500; 502; 503; 504];
     allowed_methods := ["GET"];
     history := 0 |}.

(** What the server sends back for one request: the status and, when the
    response carries a Retry-After header, the delay in seconds that the
    header asks for. *)
Record Answer : Type := mkAnswer {
  status : Z;
  retry_after : option Z
}.

Definition RETRY_AFTER_STATUS_CODES : list Z := [413; 429; 503].

(** [Retry._is_method_retryable(method)]: the method is upper-cased
    before it is looked up; an empty list allows every method. *)
Definition is_method_retryable (r : Retry) (method : string) : bool :=
  match allowed_methods r with
  | [] => true
  | methods => existsb (String.eqb (Py.upper method)) methods
  end.

(** [Retry.is_retry(method, status_code, has_retry_after)], with
    [respect_retry_after_header] at its default, True: a listed status is
    retried, and so is a 413, 429 or 503 that carries a Retry-After header
    while [total] is not used up. *)
Definition is_retry (r : Retry) (method : string) (status_code : Z)
    (has_retry_after : bool) : bool :=
  is_method_retryable r method
  && (existsb (Z.eqb status_code) (status_forcelist r)
      || negb (total r =? 0) && has_retry_after
         && existsb (Z.eqb status_code) RETRY_AFTER_STATUS_CODES).

(** [Retry.increment]: one retry is taken from [total] and the failure is
    recorded. *)
Definition increment (r : Retry) : Retry :=
  {| total := total r - 1;
     backoff_factor := backoff_factor r;
     status_forcelist := status_forcelist r;
     allowed_methods := allowed_methods r;
     history := S (history r) |}.

(** [Retry.is_exhausted]: the budget has gone below zero. *)
Definition is_exhausted (r : Retry) : bool := total r <? 0.

(** [Retry.get_backoff_time]: nothing after the first failure, then
    [backoff_factor * 2 ** (failures - 1)]. *)
Definition get_backoff_time (r : Retry) : Z :=
  if (history r <=? 1)%nat then 0
  else backoff_factor r * 2 ^ (Z.of_nat (history r) - 1).

(** What one call of the adapter did: how many requests went out, how long
    it slept before each retry, and how it ended. *)
Record outcome : Type := mkOutcome {
  requests : nat;
  sleeps : list Z;
  answer : result Z
}.

(** [Retry.sleep(response)]: the delay of the Retry-After header when the
    response has one that is positive, the backoff time otherwise. *)
Definition sleep_time (r : Retry) (a : Answer) : Z :=
  match retry_after a with
  | Some seconds => if 0 <? seconds then seconds else get_backoff_time r
  | None => get_backoff_time r
  end.

(** The adapter's send loop against a server whose [n]-th answer is
    [server n].  [fuel] bounds the recursion; [send] gives it enough for
    the whole budget. *)
Fixpoint urlopen_loop (fuel : nat) (r : Retry) (method : string)
    (server : nat -> Answer) (n : nat) (slept : list Z) : outcome :=
  let response := server n in
  let has_retry_after :=
    match retry_after response with Some _ => true | None => false end in
  if is_retry r method (status response) has_retry_after then
    let r' := increment r in
    if is_exhausted r' then mkOutcome (S n) slept (Raise RequestException)
    else
      match fuel with
      | O => mkOutcome (S n) slept (Raise RequestException)
      | S fuel' =>
          urlopen_loop fuel' r' method server (S n)
                       (slept ++ [sleep_time r' response])
      end
  else mkOutcome (S n) slept (Ok (status response)).

Definition send (r : Retry) (method : string) (server : nat -> Answer) : outcome :=
  urlopen_loop (Z.to_nat (total r)) r method server 0 [].

(** A server that sends no Retry-After header. *)
Definition without_headers (statuses : nat -> Z) : nat -> Answer :=
  fun n => mkAnswer (statuses n) None.

(** The send loop against a server that answers with a status alone. *)
Definition urlopen (r : Retry) (method : string) (server : nat -> Z) : outcome :=
  send r method (without_headers server).

(** [requests.Response], with the body already parsed by
    [BeautifulSoup(response.content, features="html.parser")]. *)
Record Response : Type := mkResponse {
  status_code : Z;
  content : Soup.Tag
}.

(** [response.raise_for_status()]: [HTTPError], a [RequestException], for
    the 4xx and 5xx codes. *)
Definition raise_for_status (r : Response) : result unit :=
  if (400 <=? status_code r) && (status_code r <? 600)
  then Raise RequestException else Ok tt.

(** What [session.get(url, params={"page": p})] gives back in this run:
    a response, or the exception it raises once the adapter has given up.
    [None] is the call without [params]. *)
Definition Session : Type := string -> option Z -> result Response.

End Http.

(** ** State and exceptions together *)

(** A command that works on a state [S]: it may change the state and may
    raise; what it changed before raising stays changed. *)
Definition ST (S A : Type) : Type := S -> result A * S.

Definition ret {S A} (a : A) : ST S A := fun s => (Ok a, s).

Definition bind {S A B} (m : ST S A) (k : A -> ST S B) : ST S B :=
  fun s =>
    match m s with
    | (Ok a, s') => k a s'
    | (Raise e, s') => (Raise e, s')
    end.

(** A computation that does not touch the state. *)
Definition lift {S A} (r : result A) : ST S A := fun s => (r, s).

Declare Scope st_scope.
Delimit Scope st_scope with st.
Notation "x <- c1 ;; c2" := (bind c1 (fun x => c2))
  (at level 100, c1 at next level, right associativity) : st_scope.

(** ** The Selenium driver *)

Module Browser.

(** A configuration button of a detail page.  [price_after_click] is the
    text of the [price] element once the button has been clicked, if the
    page then shows one; [stale] marks a handle that raises on any use. *)
Record Button : Type := mkButton {
  value : string;
  disabled : bool;
  stale : bool;
  price_after_click : option string
}.

(** A rendered detail page: the buttons inside its [swatches] block, if
    the block exists, and the price text shown when the page opens. *)
Record DetailPage : Type := mkDetailPage {
  swatches : option (list Button);
  price : option string
}.

(** The browser: the pages it can reach, the page it is on and the price
    text that page shows right now. *)
Record WebDriver : Type := mkWebDriver {
  site : string -> option DetailPage;
  page : option DetailPage;
  shown_price : option string
}.

(** [driver.get(url)] *)
Definition get (url : string) : ST WebDriver unit :=
  fun d =>
    match site d url with
    | Some pg => (Ok tt, mkWebDriver (site d) (Some pg) (price pg))
    | None => (Raise WebDriverException, d)
    end.

(** [driver.find_element(By.CLASS_NAME, "swatches")] followed by
    [swatches.find_elements(By.TAG_NAME, "button")]. *)
Definition find_swatches_buttons : ST WebDriver (list Button) :=
  fun d =>
    match page d with
    | Some pg => (of_option NoSuchElementException (swatches pg), d)
    | None => (Raise NoSuchElementException, d)
    end.

(** [button.get_property("disabled")] *)
Definition get_property_disabled (b : Button) : ST WebDriver bool :=
  lift (if stale b then Raise StaleElementReferenceException
        else Ok (disabled b)).

(** [button.get_property("value")] *)
Definition get_property_value (b : Button) : ST WebDriver string :=
  lift (if stale b then Raise StaleElementReferenceException
        else Ok (value b)).

(** [button.click()] *)
Definition click (b : Button) : ST WebDriver unit :=
  fun d =>
    if stale b then (Raise StaleElementReferenceException, d)
    else (Ok tt, mkWebDriver (site d) (page d) (price_after_click b)).

(** [driver.find_element(By.CLASS_NAME, "price").text] *)
Definition find_price_text : ST WebDriver string :=
  fun d => (of_option NoSuchElementException (shown_price d), d).

End Browser.

(** ** temp_parser.py *)

Module Scraper.

Import Soup.

(** The [Product] dataclass. *)
Record Product : Type := mkProduct {
  title : string;
  description : string;
  price : Py.pyfloat;
  rating : Z;
  num_of_reviews : Z;
  additional_info : gmap string (gmap string Py.pyfloat)
}.

(** The module-level state: the global [_driver] and the [session]. *)
Record World : Type := mkWorld {
  _driver : option Browser.WebDriver;
  session : Http.Session
}.

Definition get_driver (w : World) : option Browser.WebDriver := _driver w.

Definition set_driver (new_driver : Browser.WebDriver) (w : World) : World :=
  mkWorld (Some new_driver) (session w).

Definition BASE_URL : string := "https://webscraper.io/".

(** [urllib.parse.urljoin] against a base that is a site root ending in a
    slash, the only base temp_parser.py uses: an absolute reference
    replaces the base, a root-relative one replaces its path, any other is
    appended.  Dot segments and scheme-relative references are left as
    they are. *)
Definition urljoin (base url : string) : string :=
  match url with
  | EmptyString => base
  | String c rest =>
      if String.prefix "http://" url || String.prefix "https://" url then url
      else if Ascii.eqb c "/"%char then String.append base rest
      else String.append base url
  end.

Definition HOME_URL : string :=
  urljoin BASE_URL "test-sites/e-commerce/allinone/".

Definition LAPTOP_URL : string :=
  urljoin BASE_URL "test-sites/e-commerce/static/computers/laptops/".

(** [range(lo, hi)] *)
Definition range (lo hi : Z) : list Z :=
  map (fun i => lo + Z.of_nat i) (seq 0 (Z.to_nat (hi - lo))).

(** [session.get(url, params=...)] *)
Definition session_get (url : string) (params : option Z) : ST World Http.Response :=
  fun w => (session w url params, w).

(** *** parse_hdd_block_prices *)

(** The body of the [for button in buttons] loop; [prices] is the
    dictionary built so far. *)
Definition read_button (button : Browser.Button) (prices : gmap string Py.pyfloat)
    : ST Browser.WebDriver (gmap string Py.pyfloat) :=
  (is_disabled <- Browser.get_property_disabled button ;;
   if negb is_disabled then
     _ <- Browser.click button ;;
     price_text <- Browser.find_price_text ;;
     price_value <- lift (Py.float (Py.remove_char "$" price_text)) ;;
     config_name <- Browser.get_property_value button ;;
     ret (<[config_name := price_value]> prices)
   else ret prices)%st.

Fixpoint for_buttons (buttons : list Browser.Button) (prices : gmap string Py.pyfloat)
    : ST Browser.WebDriver (gmap string Py.pyfloat) :=
  match buttons with
  | [] => ret prices
  | button :: rest =>
      (prices' <- read_button button prices ;;
       for_buttons rest prices')%st
  end.

(** What the driver does once the detail page address is known. *)
Definition visit (absolute_url : string) : ST Browser.WebDriver (gmap string Py.pyfloat) :=
  (_ <- Browser.get absolute_url ;;
   buttons <- Browser.find_swatches_buttons ;;
   for_buttons buttons ∅)%st.

(** The body of the [try] block. *)
Definition parse_hdd_block_prices_try (product_soup : Tag)
    : ST World (gmap string Py.pyfloat) :=
  fun w =>
    match getitem_of (select_one (ByClass "title") product_soup) "href" with
    | Raise e => (Raise e, w)
    | Ok href =>
        let absolute_url := urljoin BASE_URL href in
        match get_driver w with
        | None => (Raise AttributeError, w)      (* None has no [get] *)
        | Some driver =>
            let (r, driver') := visit absolute_url driver in
            (r, set_driver driver' w)
        end
    end.

(** [except Exception: return {}] *)
Definition parse_hdd_block_prices (product_soup : Tag)
    : World -> gmap string Py.pyfloat * World :=
  fun w =>
    match parse_hdd_block_prices_try product_soup w with
    | (Ok prices, w') => (prices, w')
    | (Raise _, w') => (∅, w')
    end.

(** *** parse_single_product *)

(** The keyword arguments of [Product(...)], evaluated in source order;
    the first one that raises ends the call. *)
Definition build_product (product : Tag) (hdd_prices : gmap string Py.pyfloat)
    : result Product :=
  (title_ <- getitem_of (select_one (ByClass "title") product) "title" ;;
   description_ <- text_of (select_one (ByClass "description") product) ;;
   price_text <- text_of (select_one (ByClass "price") product) ;;
   price_ <- Py.float (Py.remove_char "$" price_text) ;;
   rating_text <- getitem_of (select_one (ByAttr "data-rating") product) "data-rating" ;;
   rating_ <- Py.int rating_text ;;
   reviews_text <- text_of (select_one (ByClass "review-count") product) ;;
   first_word <- Py.index0 (Py.split reviews_text) ;;
   num_of_reviews_ <- Py.int first_word ;;
   Ok (mkProduct title_ description_ price_ rating_ num_of_reviews_
                 {[ "hdd_prices" := hdd_prices ]}))%result.

Definition parse_single_product (product : Tag) : ST World Product :=
  fun w =>
    let (hdd_prices, w') := parse_hdd_block_prices product w in
    (build_product product hdd_prices, w').

(** *** get_num_pages *)

Definition get_num_pages (page_soup : Tag) : result Z :=
  match select_one (ByClass "pagination") page_soup with
  | None => Ok 1
  | Some pagination =>
      (li <- Py.index_neg2 (select (ByName "li") pagination) ;;
       Py.int (text li))%result
  end.

(** *** get_single_page_products *)

(** The list comprehension [[parse_single_product(p) for p in products]]. *)
Fixpoint parse_each (products : list Tag) : ST World (list Product) :=
  match products with
  | [] => ret []
  | product :: rest =>
      (p <- parse_single_product product ;;
       ps <- parse_each rest ;;
       ret (p :: ps))%st
  end.

Definition get_single_page_products (page_soup : Tag) : ST World (list Product) :=
  parse_each (select (ByClass "card-body") page_soup).

(** *** get_laptop_page_products *)

(** The [for page_num in range(2, num_pages + 1)] loop. *)
Fixpoint for_pages (pages : list Z) (all_products : list Product)
    : ST World (list Product) :=
  match pages with
  | [] => ret all_products
  | page_num :: rest =>
      (response <- session_get LAPTOP_URL (Some page_num) ;;
       _ <- lift (Http.raise_for_status response) ;;
       let next_page_soup := Http.content response in
       page_products <- get_single_page_products next_page_soup ;;
       for_pages rest (all_products ++ page_products))%st
  end.

(** The body of the [try] block. *)
Definition get_laptop_page_products_try : ST World (list Product) :=
  (response <- session_get LAPTOP_URL None ;;
   _ <- lift (Http.raise_for_status response) ;;
   let first_page_soup := Http.content response in
   all_products <- get_single_page_products first_page_soup ;;
   num_pages <- lift (get_num_pages first_page_soup) ;;
   for_pages (range 2 (num_pages + 1)) all_products)%st.

(** Both [except] clauses return [[]]; they differ in the log level only,
    and logging is not part of the model. *)
Definition get_laptop_page_products : World -> list Product * World :=
  fun w =>
    match get_laptop_page_products_try w with
    | (Ok all_products, w') => (all_products, w')
    | (Raise _, w') => ([], w')
    end.

(** *** write_products_to_csv *)

(** A cell handed to [csv.writer]. *)
Inductive cell : Type :=
  | VStr (s : string)
  | VFloat (f : Py.pyfloat)
  | VInt (z : Z)
  | VDict (d : gmap string (gmap string Py.pyfloat)).

(** A declared field of a dataclass: its name and how to read it. *)
Record Field : Type := mkField {
  name : string;
  getattr : Product -> cell
}.

(** [dataclasses.fields(Product)]: the fields in declaration order. *)
Definition fields_Product : list Field :=
  [ mkField "title" (fun p => VStr (title p));
    mkField "description" (fun p => VStr (description p));
    mkField "price" (fun p => VFloat (price p));
    mkField "rating" (fun p => VInt (rating p));
    mkField "num_of_reviews" (fun p => VInt (num_of_reviews p));
    mkField "additional_info" (fun p => VDict (additional_info p)) ].

(** [[field.name for field in fields(Product)]] *)
Definition PRODUCT_FIELDS : list string := map name fields_Product.

(** [dataclasses.astuple(product)]: the value of every declared field, in
    declaration order. *)
Definition astuple (product : Product) : list cell :=
  map (fun f => getattr f product) fields_Product.

(** The rows that end up in products.csv: the file is opened with mode
    ["w"], so they are its whole content. *)
Definition write_products_to_csv (products : list Product) : list (list cell) :=
  map VStr PRODUCT_FIELDS :: map astuple products.

End Scraper.


(** ** Vocabulary of the statements *)

Module Spec.

Import Soup Browser Scraper.

(** The decimal price a detail page displays once [b] has been clicked. *)
Definition price_of (b : Button) : option Py.pyfloat :=
  match price_after_click b with
  | Some price_text =>
      match Py.float (Py.remove_char "$" price_text) with
      | Ok price_value => Some price_value
      | Raise _ => None
      end
  | None => None
  end.

(** A button the loop gets past: its handle is live and, unless it is
    disabled, clicking it displays a price that [float] accepts. *)
Definition readable (b : Button) : bool :=
  negb (stale b)
  && (disabled b || match price_of b with Some _ => true | None => false end).

Definition enabled (b : Button) : bool := negb (disabled b).

(** Section 4.4 of the specification, step 6, read literally: the same
    loop, but a failure ends it with the entries recorded so far. *)
Fixpoint collected_until_failure (buttons : list Button)
    (prices : gmap string Py.pyfloat) (d : WebDriver) : gmap string Py.pyfloat :=
  match buttons with
  | [] => prices
  | button :: rest =>
      match read_button button prices d with
      | (Ok prices', d') => collected_until_failure rest prices' d'
      | (Raise _, _) => prices
      end
  end.

(** The price extractor as that step describes it: every failure before
    the loop gives the empty mapping, a failure inside the loop gives what
    was collected. *)
Definition prices_as_specified (product_soup : Tag) (w : World)
    : gmap string Py.pyfloat :=
  match getitem_of (select_one (ByClass "title") product_soup) "href" with
  | Raise _ => ∅
  | Ok href =>
      match get_driver w with
      | None => ∅
      | Some driver =>
          match Browser.get (urljoin BASE_URL href) driver with
          | (Raise _, _) => ∅
          | (Ok _, on_page) =>
              match find_swatches_buttons on_page with
              | (Raise _, _) => ∅
              | (Ok buttons, on_page') => collected_until_failure buttons ∅ on_page'
              end
          end
      end
  end.

(** Two worlds that differ at most in what the browser currently shows. *)
Definition same_site (w w' : World) : Prop :=
  session w = session w'
  /\ option_map site (_driver w) = option_map site (_driver w').

(** The ways in which the extraction rules of [parse_single_product] can
    fail on a block. *)
Inductive parse_failure (product : Tag) : Prop :=
  | no_title_element :
      select_one (ByClass "title") product = None -> parse_failure product
  | no_title_attribute t :
      select_one (ByClass "title") product = Some t ->
      Soup.get "title" t = None -> parse_failure product
  | no_description_element :
      select_one (ByClass "description") product = None -> parse_failure product
  | no_price_element :
      select_one (ByClass "price") product = None -> parse_failure product
  | price_not_numeric t :
      select_one (ByClass "price") product = Some t ->
      Py.float (Py.remove_char "$" (text t)) = Raise ValueError ->
      parse_failure product
  | no_rating_element :
      select_one (ByAttr "data-rating") product = None -> parse_failure product
  | rating_not_numeric t s :
      select_one (ByAttr "data-rating") product = Some t ->
      Soup.get "data-rating" t = Some s ->
      Py.int s = Raise ValueError -> parse_failure product
  | no_review_count_element :
      select_one (ByClass "review-count") product = None -> parse_failure product
  | review_count_blank t :
      select_one (ByClass "review-count") product = Some t ->
      Py.split (text t) = [] -> parse_failure product
  | review_count_not_numeric t first rest :
      select_one (ByClass "review-count") product = Some t ->
      Py.split (text t) = first :: rest ->
      Py.int first = Raise ValueError -> parse_failure product.

(** [session.get] for a listing page failed: it raised, or the status it
    brought back makes [raise_for_status] raise. *)
Definition fetch_fails (w : World) (params : option Z) : Prop :=
  match session w LAPTOP_URL params with
  | Raise _ => True
  | Ok response => raises (Http.raise_for_status response)
  end.

End Spec.

(** ** Sample markup and pages *)

Module Fixtures.

Import Soup Browser Scraper.

Definition txt (s : string) : Tag := NavigableString s.

(** A product card as the listing pages show it. *)
Definition card (full_name href shown descr price_ rating_ reviews : string) : Tag :=
  Element "div" [("class", "card-body")]
    [ Element "div" [("class", "caption")]
        [ Element "h4" [("class", "price float-end card-title pull-right")]
            [txt price_];
          Element "h4" []
            [ Element "a" [("href", href); ("class", "title"); ("title", full_name)]
                [txt shown] ];
          Element "p" [("class", "description card-text")] [txt descr] ];
      Element "div" [("class", "ratings")]
        [ Element "p" [("class", "review-count float-end")] [txt reviews];
          Element "p" [("data-rating", rating_)] [] ] ].

Definition page_item (label : string) : Tag :=
  Element "li" [("class", "page-item")]
    [ Element "a" [("class", "page-link")] [txt label] ].

(** A pagination control listing the pages [1..k] and then "next". *)
Definition pagination (k : nat) : Tag :=
  Element "ul" [("class", "pagination")]
    (map (fun i => page_item (Py.str i)) (seq 1 k) ++ [page_item ">"]).

Definition document (body : list Tag) : Tag :=
  Element "[document]" [] [ Element "html" [] [ Element "body" [] body ] ].

Definition laptop (n : string) : Tag :=
  card (String.append "Laptop " n)
       (String.append "/test-sites/e-commerce/static/product/" n)
       "Laptop..." "14 inch, 4GB" "$295.99" "3" "14 reviews".

Definition first_page : Tag :=
  document [laptop "1"; laptop "2"; pagination 3].
Definition second_page : Tag := document [laptop "3"; laptop "4"].
Definition third_page : Tag := document [laptop "5"; laptop "6"].

(** A card whose review count is not a number. *)
Definition broken_card : Tag :=
  card "Laptop 9" "/test-sites/e-commerce/static/product/9"
       "Laptop..." "14 inch" "$10.00" "3" "no reviews".

(** A card whose title link has no [href]. *)
Definition card_without_href : Tag :=
  Element "div" [("class", "card-body")]
    [ Element "div" [("class", "caption")]
        [ Element "h4" [("class", "price float-end card-title pull-right")]
            [txt "$295.99"];
          Element "h4" []
            [ Element "a" [("class", "title"); ("title", "Laptop 7")]
                [txt "Laptop..."] ];
          Element "p" [("class", "description card-text")] [txt "14 inch, 4GB"] ];
      Element "div" [("class", "ratings")]
        [ Element "p" [("class", "review-count float-end")] [txt "14 reviews"];
          Element "p" [("data-rating", "3")] [] ] ].

(** A listing whose pagination control has a single entry. *)
Definition short_pagination_page : Tag :=
  document [ laptop "1";
             Element "ul" [("class", "pagination")] [page_item "1"] ].

Definition ok (t : Tag) : result Http.Response := Ok (Http.mkResponse 200 t).

(** The laptop listing, three pages long. *)
Definition three_pages : Http.Session :=
  fun url params =>
    if String.eqb url LAPTOP_URL then
      match params with
      | None => ok first_page
      | Some 2 => ok second_page
      | Some 3 => ok third_page
      | Some _ => Ok (Http.mkResponse 404 (document []))
      end
    else Raise RequestException.

(** The same listing, but the second page cannot be fetched. *)
Definition second_page_down : Http.Session :=
  fun url params =>
    match params with
    | Some 2 => Raise RequestException
    | _ => three_pages url params
    end.

(** The same listing, but the third page answers 503. *)
Definition third_page_503 : Http.Session :=
  fun url params =>
    match params with
    | Some 3 => Ok (Http.mkResponse 503 (document []))
    | _ => three_pages url params
    end.

Definition nothing_reachable : Http.Session :=
  fun _ _ => Raise RequestException.

(** Detail pages without configuration buttons. *)
Definition plain_site : string -> option DetailPage :=
  fun _ => Some (mkDetailPage None (Some "$295.99")).

Definition browser (pages : string -> option DetailPage) : WebDriver :=
  mkWebDriver pages None None.

Definition world (pages : string -> option DetailPage) (s : Http.Session) : World :=
  mkWorld (Some (browser pages)) s.

(** Three buttons, the second disabled. *)
Definition hdd_buttons : list Button :=
  [ mkButton "128" false false (Some "$295.99");
    mkButton "256" true false (Some "$315.99");
    mkButton "512" false false (Some "$335.99") ].

(** Two enabled buttons; the second one shows no number. *)
Definition second_price_unreadable : list Button :=
  [ mkButton "128" false false (Some "$295.99");
    mkButton "256" false false (Some "N/A") ].

Definition site_with (buttons : list Button) : string -> option DetailPage :=
  fun _ => Some (mkDetailPage (Some buttons) (Some "$295.99")).

(** What the plain site makes of [laptop n]. *)
Definition parsed_laptop (n : string) : Product :=
  mkProduct (String.append "Laptop " n) "14 inch, 4GB"
            (Py.FNum (Qmake 29599 100)) 3 14 {[ "hdd_prices" := ∅ ]}.

Definition six_products : list Product :=
  map parsed_laptop ["1"; "2"; "3"; "4"; "5"; "6"].

End Fixtures.

(** ** The rest of temp_parser.py: get_home_products and main *)

Module Program.

Import Soup Scraper.

(** *** get_home_products *)

(** The body of the [try] block.  The fresh User-Agent it draws is put in
    a copy of the headers that no request uses. *)
Definition get_home_products_try : ST World (list Product) :=
  (response <- session_get HOME_URL None ;;
   _ <- lift (Http.raise_for_status response) ;;
   let soup := Http.content response in
   let products := select (ByClass "card-body") soup in
   parse_each products)%st.

(** Both [except] clauses return [[]]. *)
Definition get_home_products : World -> list Product * World :=
  fun w =>
    match get_home_products_try w with
    | (Ok products, w') => (products, w')
    | (Raise _, w') => ([], w')
    end.

(** *** main *)

(** What [main] runs in: the module state, what [webdriver.Chrome()] and
    [open("products.csv", "w")] will do when called, the rows products.csv
    holds ([None]: no such file), whether a browser started by [main] is
    still running and whether [session.close()] was called. *)
Record Machine : Type := mkMachine {
  world : World;
  chrome : result Browser.WebDriver;
  open_csv : result unit;
  products_csv : option (list (list cell));
  chrome_running : bool;
  session_closed : bool
}.

(** The [try] block with its [except Exception] clause.  Leaving the
    [with] block quits the browser, however the block ends; an exception
    from [open] leaves the file as it was. *)
Definition main_try (m : Machine) : Machine :=
  match chrome m with
  | Raise _ => m
  | Ok driver =>
      let (products, w') := get_laptop_page_products (set_driver driver (world m)) in
      let file :=
        match open_csv m with
        | Ok _ => Some (write_products_to_csv products)
        | Raise _ => products_csv m
        end in
      mkMachine w' (chrome m) (open_csv m) file false (session_closed m)
  end.

(** [finally: session.close()] *)
Definition main (m : Machine) : Machine :=
  let m' := main_try m in
  mkMachine (world m') (chrome m') (open_csv m') (products_csv m')
            (chrome_running m') true.

End Program.

(** ** More vocabulary and samples *)

Module Vocabulary.

Import Soup Browser Scraper Spec.

(** The price shown after the click on the last enabled button whose
    value is [k]. *)
Fixpoint last_price (buttons : list Button) (k : string) : option Py.pyfloat :=
  match buttons with
  | [] => None
  | b :: rest =>
      match last_price rest k with
      | Some p => Some p
      | None => if enabled b && String.eqb (value b) k then price_of b else None
      end
  end.

(** A product whose price mapping is empty. *)
Definition no_prices (p : Product) : Prop :=
  additional_info p = {[ "hdd_prices" := ∅ ]}.

(** [session.get(HOME_URL)] failed. *)
Definition home_fetch_fails (w : World) : Prop :=
  match session w HOME_URL None with
  | Raise _ => True
  | Ok response => raises (Http.raise_for_status response)
  end.

(** A server that answers [failures] requests with 503 and then 200. *)
Definition recovering (failures : nat) : nat -> Z :=
  fun n => if (n <? failures)%nat then 503 else 200.

(** Two enabled buttons with the same value. *)
Definition twin_buttons : list Button :=
  [ mkButton "128" false false (Some "$10.00");
    mkButton "128" false false (Some "$20.00") ].

(** One session for every address: the same page whatever is asked. *)
Definition always (t : Tag) : Http.Session := fun _ _ => Fixtures.ok t.

(** A world whose driver was never set. *)
Definition no_driver (s : Http.Session) : World := mkWorld None s.

(** A listing with one good and one malformed card. *)
Definition page_with_broken_card : Tag :=
  Fixtures.document [Fixtures.laptop "1"; Fixtures.broken_card].

(** Page 2 of the three-page listing carries a malformed card. *)
Definition broken_second_page : Http.Session :=
  fun url params =>
    match params with
    | Some 2 => Fixtures.ok page_with_broken_card
    | _ => Fixtures.three_pages url params
    end.

(** A control with a "previous" entry, a gap and twenty pages. *)
Definition long_control : Tag :=
  Element "ul" [("class", "pagination")]
    [ Fixtures.page_item "<"; Fixtures.page_item "1";
      Fixtures.page_item "..."; Fixtures.page_item " 20 ";
      Fixtures.page_item ">" ].

(** A control whose entry before the last is no number. *)
Definition dotted_control : Tag :=
  Element "ul" [("class", "pagination")]
    [ Fixtures.page_item "1"; Fixtures.page_item "..."; Fixtures.page_item ">" ].

(** A machine on which Chrome starts and the file can be written; the
    file holds [old_rows] from an earlier run. *)
Definition machine (w : World) (old_rows : list (list cell)) : Program.Machine :=
  Program.mkMachine w (Ok (Fixtures.browser Fixtures.plain_site)) (Ok tt)
                    (Some old_rows) false false.

End Vocabulary.
(** * Properties *)

(** ** Python built-ins *)

Section PyExamples.

Example int_examples :
  Py.int " 12 " = Ok 12
  /\ Py.int "1_000" = Ok 1000
  /\ Py.int "-7" = Ok (-7)
  /\ Py.int "1__0" = Raise ValueError
  /\ Py.int "" = Raise ValueError
  /\ Py.int "12 reviews" = Raise ValueError.
Proof. repeat split. Qed.

Example float_examples :
  Py.float "1123.87" = Ok (Py.FNum (Qmake 112387 100))
  /\ Py.float "12.50" = Ok (Py.FNum (Qmake 25 2))
  /\ Py.float "1e3" = Ok (Py.FNum (Qmake 1000 1))
  /\ Py.float ".5" = Ok (Py.FNum (Qmake 1 2))
  /\ Py.float "-Inf" = Ok (Py.FInf true)
  /\ Py.float "." = Raise ValueError
  /\ Py.float "$5" = Raise ValueError
  /\ Py.float "N/A" = Raise ValueError.
Proof. repeat split. Qed.

Example split_examples :
  Py.split "  12   reviews " = ["12"; "reviews"]
  /\ Py.split "   " = []
  /\ Py.remove_char "$" "$295.99" = "295.99".
Proof. repeat split. Qed.

End PyExamples.

Section PyFacts.

Import Py.

Lemma chars_string_of_uint d :
  chars (NilEmpty.string_of_uint d) = uint_chars d.
Proof. induction d; simpl; unfold chars in *; simpl; congruence. Qed.

Lemma uint_chars_digits d : all_digits (uint_chars d) = true.
Proof. induction d; simpl; auto. Qed.

Lemma digit_not_space c : isdigit c = true -> isspace_num c = false.
Proof.
  destruct c as [[] [] [] [] [] [] [] []]; vm_compute; congruence.
Qed.

Lemma digit_not_mark c :
  isdigit c = true ->
  Ascii.eqb c "_" = false /\ Ascii.eqb c "-" = false /\ Ascii.eqb c "+" = false.
Proof.
  destruct c as [[] [] [] [] [] [] [] []]; vm_compute; intuition congruence.
Qed.

Lemma lstrip_num_digits l : all_digits l = true -> lstrip_num l = l.
Proof.
  destruct l as [|c r]; simpl; [reflexivity|].
  intros [Hc _]%andb_prop. now rewrite (digit_not_space c Hc).
Qed.

Lemma all_digits_rev l : all_digits l = true -> all_digits (rev l) = true.
Proof.
  unfold all_digits. rewrite !forallb_forall.
  intros H c Hc. apply H. now apply in_rev.
Qed.

Lemma strip_num_digits l : all_digits l = true -> strip_num l = l.
Proof.
  intros H. unfold strip_num.
  rewrite (lstrip_num_digits l H).
  rewrite (lstrip_num_digits _ (all_digits_rev l H)).
  apply rev_involutive.
Qed.

Lemma drop_underscores_digits l prev :
  all_digits l = true -> drop_underscores prev l = Some l.
Proof.
  revert prev. induction l as [|c r IH]; intros prev; simpl; [reflexivity|].
  intros [Hc Hr]%andb_prop.
  destruct (digit_not_mark c Hc) as (-> & _ & _).
  now rewrite (IH _ Hr).
Qed.

Lemma take_sign_digits l : all_digits l = true -> take_sign l = (false, l).
Proof.
  destruct l as [|c r]; simpl; [reflexivity|].
  intros [Hc _]%andb_prop.
  destruct (digit_not_mark c Hc) as (_ & -> & ->). reflexivity.
Qed.

Lemma digits_val_uint d (a : nat) :
  digits_val (Z.of_nat a) (uint_chars d) = Z.of_nat (Nat.of_uint_acc d a).
Proof.
  revert a. induction d; intros a; simpl; [reflexivity | ..];
    rewrite <- IHd; f_equal; rewrite Nat.tail_mul_spec;
    match goal with
    | |- context [digit_val ?c] =>
        let v := eval vm_compute in (digit_val c) in
        change (digit_val c) with v
    end; lia.
Qed.

(** [int] reads a non-empty numeral back as its value. *)
Lemma int_of_uint_chars d :
  uint_chars d <> [] ->
  int_of_chars (uint_chars d) = Some (Z.of_nat (Nat.of_uint d)).
Proof.
  intros Hne. unfold int_of_chars.
  pose proof (uint_chars_digits d) as Hd.
  rewrite (strip_num_digits _ Hd), (drop_underscores_digits _ false Hd).
  rewrite (take_sign_digits _ Hd), Hd.
  destruct (uint_chars d) eqn:E; [congruence|].
  rewrite <- E. simpl. f_equal. apply (digits_val_uint d 0).
Qed.

Lemma to_uint_chars_nonempty n : uint_chars (Nat.to_uint n) <> [].
Proof.
  intros H.
  assert (Hn : Nat.to_uint n = Decimal.Nil)
    by (destruct (Nat.to_uint n); simpl in H; congruence).
  apply (unorm_nonnil (Nat.to_uint n)).
  now rewrite <- DecimalNat.Unsigned.to_of, DecimalNat.Unsigned.of_to.
Qed.

(** [int(str(n)) == n] *)
Lemma int_str (n : nat) : Py.int (Py.str n) = Ok (Z.of_nat n).
Proof.
  unfold Py.int, Py.str, NilZero.string_of_uint.
  pose proof (to_uint_chars_nonempty n) as Hne.
  destruct (Nat.to_uint n) eqn:E; try (simpl in Hne; congruence);
    rewrite <- E in *; rewrite chars_string_of_uint;
    rewrite (int_of_uint_chars _ Hne); simpl;
    now rewrite DecimalNat.Unsigned.of_to.
Qed.

End PyFacts.

(** ** get_num_pages *)

Section NumPages.

Import Soup Scraper.

Lemma index_neg2_two {A} (l : list A) (a b : A) :
  Py.index_neg2 (l ++ [a; b]) = Ok a.
Proof.
  unfold Py.index_neg2. rewrite length_app. simpl.
  destruct (Nat.ltb_spec (length l + 2) 2) as [H|_]; [lia|].
  replace (length l + 2 - 2)%nat with (length l + 0)%nat by lia.
  now rewrite lookup_app_r, Nat.add_0_r, Nat.sub_diag by lia.
Qed.

Lemma index_neg2_short {A} (l : list A) :
  (length l < 2)%nat -> Py.index_neg2 l = Raise IndexError.
Proof.
  intros H. unfold Py.index_neg2.
  destruct (Nat.ltb_spec (length l) 2); [reflexivity | lia].
Qed.

(** Whatever comes before, the entry in front of the last one decides. *)
Lemma get_num_pages_second_to_last page_soup pagination before e next :
  select_one (ByClass "pagination") page_soup = Some pagination ->
  select (ByName "li") pagination = before ++ [e; next] ->
  get_num_pages page_soup = Py.int (text e).
Proof.
  intros Hp Hli. unfold get_num_pages. rewrite Hp, Hli.
  now rewrite index_neg2_two.
Qed.

(** C2: without a pagination control the page count is 1; when the
    control lists the pages 1..k and then a "next" entry, the count is read
    from the entry before the last and is k. *)
Theorem get_num_pages_spec :
  (forall page_soup,
      select_one (ByClass "pagination") page_soup = None ->
      get_num_pages page_soup = Ok 1)
  /\
  (forall page_soup pagination entries next (k : nat),
      (1 <= k)%nat ->
      select_one (ByClass "pagination") page_soup = Some pagination ->
      select (ByName "li") pagination = entries ++ [next] ->
      map text entries = map Py.str (seq 1 k) ->
      get_num_pages page_soup = Ok (Z.of_nat k)).
Proof.
  split.
  - intros page_soup H. unfold get_num_pages. now rewrite H.
  - intros page_soup pagination entries next k Hk Hp Hli Htxt.
    destruct k as [|k]; [lia|].
    rewrite seq_S, map_app in Htxt. simpl in Htxt.
    destruct (exists_last (l := entries)) as (before & e & ->).
    { intros ->. destruct (map Py.str (seq 1 k)); discriminate. }
    rewrite map_app in Htxt. simpl in Htxt.
    apply app_inj_tail in Htxt as [_ He].
    rewrite <- app_assoc in Hli. simpl in Hli.
    rewrite (get_num_pages_second_to_last _ _ _ _ _ Hp Hli), He.
    apply int_str.
Qed.

Lemma get_num_pages_spec_witness :
  get_num_pages Fixtures.second_page = Ok 1
  /\ get_num_pages Fixtures.first_page = Ok 3.
Proof.
  split.
  - apply (proj1 get_num_pages_spec). reflexivity.
  - apply (proj2 get_num_pages_spec Fixtures.first_page (Fixtures.pagination 3)
             (map (fun i => Fixtures.page_item (Py.str i)) (seq 1 3))
             (Fixtures.page_item ">") 3%nat).
    + lia.
    + reflexivity.
    + reflexivity.
    + reflexivity.
Defined.

(** C10: a pagination control with fewer than two [li] entries makes
    [[-2]] fault: [get_num_pages] raises IndexError and gives no
    integer. *)
Theorem get_num_pages_index_fault page_soup pagination :
  select_one (ByClass "pagination") page_soup = Some pagination ->
  (length (select (ByName "li") pagination) < 2)%nat ->
  get_num_pages page_soup = Raise IndexError.
Proof.
  intros Hp Hlen. unfold get_num_pages. rewrite Hp.
  now rewrite (index_neg2_short _ Hlen).
Qed.

Lemma get_num_pages_index_fault_witness :
  get_num_pages Fixtures.short_pagination_page = Raise IndexError.
Proof.
  apply (get_num_pages_index_fault Fixtures.short_pagination_page
           (Element "ul" [("class", "pagination")] [Fixtures.page_item "1"])).
  - reflexivity.
  - simpl. lia.
Defined.

End NumPages.

(** ** The retry configuration *)

Section RetryStrategy.

Import Http.

Lemma is_retry_forced (r : Retry) status has_retry_after :
  allowed_methods r = ["GET"] ->
  status_forcelist r = status_forcelist retry_strategy ->
  In status (status_forcelist retry_strategy) ->
  is_retry r "GET" status has_retry_after = true.
Proof.
  intros Hm Hs Hin. unfold is_retry, is_method_retryable. rewrite Hm, Hs.
  simpl in *.
  destruct Hin as [<-|[<-|[<-|[<-|[<-|[]]]]]]; reflexivity.
Qed.

(** C5 (attempt count): against a server that keeps answering with a
    listed status, the configured strategy sends four GET requests, one
    more than the three the comment on [total=3] announces, sleeping 0, 2
    and 4 seconds in between, and then gives up. *)
Theorem retry_strategy_sends_four (server : nat -> Z) :
  (forall n, In (server n) (status_forcelist retry_strategy)) ->
  urlopen retry_strategy "GET" server
  = mkOutcome 4 [0; 2; 4] (Raise RequestException).
Proof.
  intros H. unfold urlopen, send, without_headers. simpl.
  repeat (rewrite is_retry_forced by (reflexivity || apply H); simpl).
  reflexivity.
Qed.

Lemma retry_strategy_sends_four_witness :
  requests (urlopen retry_strategy "GET" (fun _ => 503)) = 4%nat.
Proof.
  rewrite (retry_strategy_sends_four (fun _ => 503)).
  - reflexivity.
  - intros _. simpl. auto.
Defined.

End RetryStrategy.

(** ** parse_hdd_block_prices *)

Section HddPrices.

Import Soup Browser Scraper Spec.

Implicit Types (b button : Button) (buttons : list Button).
Implicit Types (prices : gmap string Py.pyfloat) (d : WebDriver).

(** What one pass of the loop body did, when it did not raise. *)
Lemma read_button_ok_inv button prices d prices' d' :
  read_button button prices d = (Ok prices', d') ->
  stale button = false
  /\ ((disabled button = true /\ prices' = prices)
      \/ (disabled button = false
          /\ exists p, price_of button = Some p
                       /\ prices' = <[value button := p]> prices)).
Proof.
  unfold read_button, bind, get_property_disabled, get_property_value,
    click, find_price_text, lift, ret, price_of.
  destruct (stale button); simpl; [discriminate|].
  destruct (disabled button); simpl.
  - intros [= <- _]. auto.
  - destruct (price_after_click button) as [price_text|]; simpl; [|discriminate].
    destruct (Py.float _) as [p|]; simpl; [|discriminate].
    intros [= <- _]. split; [reflexivity|]. right. eauto.
Qed.

Lemma read_button_readable button prices d :
  readable button = true ->
  exists prices' d', read_button button prices d = (Ok prices', d').
Proof.
  unfold readable, read_button, bind, get_property_disabled,
    get_property_value, click, find_price_text, lift, ret, price_of.
  destruct (stale button); simpl; [discriminate|].
  destruct (disabled button); simpl; [eauto|].
  destruct (price_after_click button) as [price_text|]; simpl; [|discriminate].
  destruct (Py.float _) as [p|]; simpl; [eauto|discriminate].
Qed.

Lemma read_button_unreadable button prices d :
  readable button = false ->
  exists e d', read_button button prices d = (Raise e, d').
Proof.
  unfold readable, read_button, bind, get_property_disabled,
    get_property_value, click, find_price_text, lift, ret, price_of.
  destruct (stale button); simpl; [eauto|].
  destruct (disabled button); simpl; [discriminate|].
  destruct (price_after_click button) as [price_text|]; simpl; [|eauto].
  destruct (Py.float _) as [p|]; simpl; [discriminate|eauto].
Qed.

(** The loop gets through a list of readable buttons. *)
Lemma for_buttons_readable buttons :
  Forall (fun b => readable b = true) buttons ->
  forall prices d,
  exists prices' d', for_buttons buttons prices d = (Ok prices', d').
Proof.
  induction 1 as [|b rest Hb _ IH]; intros prices d; simpl.
  - unfold ret. eauto.
  - destruct (read_button_readable b prices d Hb) as (p1 & d1 & E).
    unfold bind. rewrite E. apply IH.
Qed.

(** One unreadable button makes the whole loop raise. *)
Lemma for_buttons_unreadable before bad after :
  Forall (fun b => readable b = true) before ->
  readable bad = false ->
  forall prices d,
  exists e d', for_buttons (before ++ bad :: after) prices d = (Raise e, d').
Proof.
  induction 1 as [|b rest Hb _ IH]; intros Hbad prices d; simpl.
  - destruct (read_button_unreadable bad prices d Hbad) as (e & d' & E).
    unfold bind. rewrite E. eauto.
  - destruct (read_button_readable b prices d Hb) as (p1 & d1 & E).
    unfold bind. rewrite E. now apply IH.
Qed.

Lemma same_value_same_button buttons b b' :
  NoDup (map value buttons) ->
  b ∈ buttons -> b' ∈ buttons -> value b = value b' -> b = b'.
Proof.
  induction buttons as [|x rest IH]; simpl; intros Hnd Hb Hb' Hv.
  - inversion Hb.
  - apply NoDup_cons in Hnd as [Hx Hnd].
    apply elem_of_cons in Hb as [->|Hb], Hb' as [->|Hb']; auto.
    + exfalso. apply Hx. rewrite Hv. now apply list_elem_of_fmap_2.
    + exfalso. apply Hx. rewrite <- Hv. now apply list_elem_of_fmap_2.
Qed.

(** The entries of the dictionary after a loop that did not raise. *)
Lemma for_buttons_ok_lookup buttons :
  NoDup (map value buttons) ->
  forall prices d prices' d',
  for_buttons buttons prices d = (Ok prices', d') ->
  (forall b, b ∈ buttons -> disabled b = false ->
             exists p, price_of b = Some p /\ prices' !! value b = Some p)
  /\ (forall k, (forall b, b ∈ buttons -> disabled b = false -> value b <> k) ->
                prices' !! k = prices !! k).
Proof.
  induction buttons as [|x rest IH]; simpl; intros Hnd prices d prices' d' Hrun.
  - unfold ret in Hrun. injection Hrun as <- _.
    split; [intros b Hb; inversion Hb | reflexivity].
  - apply NoDup_cons in Hnd as [Hx Hnd].
    unfold bind in Hrun.
    destruct (read_button x prices d) as [[p1|e] d1] eqn:E; [|discriminate].
    apply read_button_ok_inv in E as (_ & E).
    destruct (IH Hnd _ _ _ _ Hrun) as (Hin & Hout).
    assert (Hfresh : forall b, b ∈ rest -> value b <> value x).
    { intros b Hb Hv. apply Hx. rewrite <- Hv. now apply list_elem_of_fmap_2. }
    split.
    + intros b [->|Hb]%elem_of_cons Hen; [|now apply Hin].
      destruct E as [[Hdis _]|(_ & p & Hp & ->)]; [congruence|].
      exists p. split; [assumption|].
      rewrite Hout by (intros b Hb _; now apply Hfresh).
      apply lookup_insert_eq.
    + intros k Hk. rewrite Hout.
      * destruct E as [[_ ->]|(Hen & p & _ & ->)]; [reflexivity|].
        apply lookup_insert_ne. apply Hk; [apply list_elem_of_here | assumption].
      * intros b Hb. apply Hk. now apply list_elem_of_further.
Qed.

(** Its size: one entry more for every enabled button. *)
Lemma for_buttons_ok_size buttons :
  NoDup (map value buttons) ->
  forall prices d prices' d',
  (forall b, b ∈ buttons -> prices !! value b = None) ->
  for_buttons buttons prices d = (Ok prices', d') ->
  size prices' = (size prices + length (List.filter enabled buttons))%nat.
Proof.
  induction buttons as [|x rest IH]; simpl;
    intros Hnd prices d prices' d' Hnew Hrun.
  - unfold ret in Hrun. injection Hrun as <- _. lia.
  - apply NoDup_cons in Hnd as [Hx Hnd].
    unfold bind in Hrun.
    destruct (read_button x prices d) as [[p1|e] d1] eqn:E; [|discriminate].
    apply read_button_ok_inv in E as (_ & E).
    assert (Hfresh : forall b, b ∈ rest -> value b <> value x).
    { intros b Hb Hv. apply Hx. rewrite <- Hv. now apply list_elem_of_fmap_2. }
    rewrite (IH Hnd p1 d1 prices' d'); [| |assumption].
    + unfold enabled at 2.
      destruct E as [[-> ->]|(-> & p & _ & ->)]; simpl; [lia|].
      rewrite map_size_insert_None; [lia|].
      apply Hnew, list_elem_of_here.
    + intros b Hb.
      destruct E as [[_ ->]|(_ & p & _ & ->)].
      * apply Hnew. now apply list_elem_of_further.
      * rewrite lookup_insert_ne by (apply not_eq_sym; now apply Hfresh).
        apply Hnew. now apply list_elem_of_further.
Qed.

(** Up to the loop, on a page that can be opened and has the control. *)
Lemma parse_hdd_block_prices_try_loop product_soup w driver href pg buttons :
  getitem_of (select_one (ByClass "title") product_soup) "href" = Ok href ->
  get_driver w = Some driver ->
  site driver (urljoin BASE_URL href) = Some pg ->
  swatches pg = Some buttons ->
  fst (parse_hdd_block_prices_try product_soup w)
  = fst (for_buttons buttons ∅ (mkWebDriver (site driver) (Some pg) (Browser.price pg))).
Proof.
  intros Hhref Hdrv Hsite Hsw.
  unfold parse_hdd_block_prices_try. rewrite Hhref, Hdrv.
  unfold visit, bind, Browser.get, find_swatches_buttons.
  rewrite Hsite. simpl. rewrite Hsw. simpl.
  now destruct (for_buttons _ _ _) as [[?|?] ?].
Qed.

Lemma parse_hdd_block_prices_fst product_soup w :
  fst (parse_hdd_block_prices product_soup w)
  = match fst (parse_hdd_block_prices_try product_soup w) with
    | Ok prices => prices
    | Raise _ => ∅
    end.
Proof.
  unfold parse_hdd_block_prices.
  now destruct (parse_hdd_block_prices_try _ _) as [[?|?] ?].
Qed.

(** However many buttons were read before, one that cannot be read
    leaves nothing. *)
Lemma parse_hdd_block_prices_unreadable_button
    product_soup w driver href pg before bad after :
  getitem_of (select_one (ByClass "title") product_soup) "href" = Ok href ->
  get_driver w = Some driver ->
  site driver (urljoin BASE_URL href) = Some pg ->
  swatches pg = Some (before ++ bad :: after) ->
  Forall (fun b => readable b = true) before ->
  readable bad = false ->
  fst (parse_hdd_block_prices product_soup w) = ∅.
Proof.
  intros Hhref Hdrv Hsite Hsw Hbefore Hbad.
  rewrite parse_hdd_block_prices_fst.
  rewrite (parse_hdd_block_prices_try_loop _ _ _ _ _ _ Hhref Hdrv Hsite Hsw).
  destruct (for_buttons_unreadable before bad after Hbefore Hbad ∅
              (mkWebDriver (site driver) (Some pg) (Browser.price pg)))
    as (e & d' & ->).
  reflexivity.
Qed.

(** C3, as the code has it: when anything raises inside the [try] block,
    before or after some prices were read, the function does not raise and
    returns the empty mapping. *)
Theorem parse_hdd_block_prices_failure product_soup w e :
  fst (parse_hdd_block_prices_try product_soup w) = Raise e ->
  fst (parse_hdd_block_prices product_soup w) = ∅.
Proof.
  intros H. now rewrite parse_hdd_block_prices_fst, H.
Qed.

Lemma parse_hdd_block_prices_failure_witness :
  fst (parse_hdd_block_prices (Fixtures.laptop "1")
         (Fixtures.world (Fixtures.site_with Fixtures.second_price_unreadable)
                         Fixtures.three_pages)) = ∅.
Proof.
  apply (parse_hdd_block_prices_failure _ _ ValueError).
  vm_compute. reflexivity.
Defined.

(** C3 as stated fails: the first button was read, the second one raised,
    and the entry of the first is not returned. *)
Lemma parse_hdd_block_prices_partial_counterexample :
  let w := Fixtures.world (Fixtures.site_with Fixtures.second_price_unreadable)
                          Fixtures.three_pages in
  fst (parse_hdd_block_prices_try (Fixtures.laptop "1") w) = Raise ValueError
  /\ prices_as_specified (Fixtures.laptop "1") w
     = {[ "128" := Py.FNum (Qmake 29599 100) ]}
  /\ fst (parse_hdd_block_prices (Fixtures.laptop "1") w)
     <> prices_as_specified (Fixtures.laptop "1") w.
Proof.
  split; [vm_compute; reflexivity|].
  split; [vm_compute; reflexivity|].
  intros H. apply (f_equal (fun m => m !! "128")) in H.
  vm_compute in H. discriminate.
Qed.

(** C4, as the code has it: on a detail page that opens, has the control,
    and whose buttons are all readable and carry pairwise different
    values, the mapping has no key of a disabled button and exactly one
    entry per enabled button, under that button's value, holding the price
    displayed after the click. *)
Theorem parse_hdd_block_prices_entries product_soup w driver href pg buttons :
  getitem_of (select_one (ByClass "title") product_soup) "href" = Ok href ->
  get_driver w = Some driver ->
  site driver (urljoin BASE_URL href) = Some pg ->
  swatches pg = Some buttons ->
  Forall (fun b => readable b = true) buttons ->
  NoDup (map value buttons) ->
  let prices := fst (parse_hdd_block_prices product_soup w) in
  (forall b, b ∈ buttons -> disabled b = true -> prices !! value b = None)
  /\ (forall b, b ∈ buttons -> disabled b = false ->
                 exists p, price_of b = Some p /\ prices !! value b = Some p)
  /\ size prices = length (List.filter enabled buttons).
Proof.
  intros Hhref Hdrv Hsite Hsw Hread Hnd prices. subst prices.
  rewrite parse_hdd_block_prices_fst.
  rewrite (parse_hdd_block_prices_try_loop _ _ _ _ _ _ Hhref Hdrv Hsite Hsw).
  destruct (for_buttons_readable buttons Hread ∅
              (mkWebDriver (site driver) (Some pg) (Browser.price pg)))
    as (prices' & d' & Hrun).
  rewrite Hrun. simpl.
  destruct (for_buttons_ok_lookup buttons Hnd _ _ _ _ Hrun) as (Hin & Hout).
  repeat split.
  - intros b Hb Hdis. rewrite Hout; [apply lookup_empty|].
    intros b' Hb' Hen Hv.
    assert (b' = b) by (eapply same_value_same_button; eauto).
    congruence.
  - assumption.
  - rewrite (for_buttons_ok_size buttons Hnd _ _ _ _ (fun b _ => lookup_empty _) Hrun).
    now rewrite map_size_empty.
Qed.

Lemma parse_hdd_block_prices_entries_witness :
  let prices :=
    fst (parse_hdd_block_prices (Fixtures.laptop "1")
           (Fixtures.world (Fixtures.site_with Fixtures.hdd_buttons)
                           Fixtures.three_pages)) in
  (forall b, b ∈ Fixtures.hdd_buttons -> disabled b = true ->
             prices !! value b = None)
  /\ (forall b, b ∈ Fixtures.hdd_buttons -> disabled b = false ->
                 exists p, price_of b = Some p /\ prices !! value b = Some p)
  /\ size prices = 2%nat.
Proof.
  apply (parse_hdd_block_prices_entries (Fixtures.laptop "1")
           (Fixtures.world (Fixtures.site_with Fixtures.hdd_buttons)
                           Fixtures.three_pages)
           (Fixtures.browser (Fixtures.site_with Fixtures.hdd_buttons))
           "/test-sites/e-commerce/static/product/1"
           (mkDetailPage (Some Fixtures.hdd_buttons) (Some "$295.99"))
           Fixtures.hdd_buttons).
  - reflexivity.
  - reflexivity.
  - reflexivity.
  - reflexivity.
  - repeat constructor.
  - simpl. repeat constructor; rewrite ?elem_of_cons, ?elem_of_nil;
      intuition discriminate.
Defined.

(** C4 as stated fails: an enabled button whose displayed price is a
    number has no entry once a later button cannot be read. *)
Lemma parse_hdd_block_prices_entries_counterexample :
  let buttons := Fixtures.second_price_unreadable in
  let prices :=
    fst (parse_hdd_block_prices (Fixtures.laptop "1")
           (Fixtures.world (Fixtures.site_with buttons) Fixtures.three_pages)) in
  exists b, b ∈ buttons /\ disabled b = false
            /\ price_of b = Some (Py.FNum (Qmake 29599 100))
            /\ prices !! value b = None.
Proof.
  exists (mkButton "128" false false (Some "$295.99")).
  split; [apply list_elem_of_here|].
  split; [reflexivity|].
  split; vm_compute; reflexivity.
Qed.

End HddPrices.

(** ** What the browser state can and cannot change *)

Section Frame.

Import Soup Browser Scraper Spec.

Lemma same_site_refl w : same_site w w.
Proof. split; reflexivity. Qed.

Lemma same_site_sym w w' : same_site w w' -> same_site w' w.
Proof. intros [? ?]; split; congruence. Qed.

Lemma same_site_trans w1 w2 w3 :
  same_site w1 w2 -> same_site w2 w3 -> same_site w1 w3.
Proof. intros [? ?] [? ?]; split; congruence. Qed.

Lemma read_button_site b prices d :
  site (snd (read_button b prices d)) = site d.
Proof.
  unfold read_button, bind, get_property_disabled, get_property_value,
    click, find_price_text, lift, ret.
  destruct (stale b); simpl; [reflexivity|].
  destruct (disabled b); simpl; [reflexivity|].
  destruct (price_after_click b); simpl; [|reflexivity].
  destruct (Py.float _); reflexivity.
Qed.

Lemma for_buttons_site buttons prices d :
  site (snd (for_buttons buttons prices d)) = site d.
Proof.
  revert prices d. induction buttons as [|b rest IH]; intros prices d; simpl.
  - reflexivity.
  - unfold bind. pose proof (read_button_site b prices d) as Hb.
    destruct (read_button b prices d) as [[p1|e] d1]; simpl in *.
    + now rewrite IH.
    + assumption.
Qed.

Lemma visit_site url d : site (snd (visit url d)) = site d.
Proof.
  unfold visit, bind, Browser.get, find_swatches_buttons.
  destruct (site d url) as [pg|]; simpl; [|reflexivity].
  destruct (swatches pg) as [buttons|]; simpl; [|reflexivity].
  now rewrite for_buttons_site.
Qed.

(** What a visit returns depends on the site alone, not on the page the
    browser was showing before. *)
Lemma visit_same url d d' :
  site d = site d' -> fst (visit url d) = fst (visit url d').
Proof.
  intros H. unfold visit, bind, Browser.get. rewrite H.
  now destruct (site d' url).
Qed.

Lemma parse_hdd_block_prices_try_same product_soup w w' :
  same_site w w' ->
  fst (parse_hdd_block_prices_try product_soup w)
  = fst (parse_hdd_block_prices_try product_soup w').
Proof.
  intros [_ Hd]. unfold parse_hdd_block_prices_try, get_driver.
  destruct (getitem_of _ _) as [href|e]; [|reflexivity].
  destruct (_driver w) as [d|], (_driver w') as [d'|]; simpl in Hd;
    try discriminate; [|reflexivity].
  injection Hd as Hd.
  pose proof (visit_same (urljoin BASE_URL href) d d' Hd) as Hv.
  now destruct (visit _ d), (visit _ d').
Qed.

Lemma parse_hdd_block_prices_try_keeps product_soup w :
  same_site w (snd (parse_hdd_block_prices_try product_soup w)).
Proof.
  unfold parse_hdd_block_prices_try, get_driver.
  destruct (getitem_of _ _) as [href|e]; [|apply same_site_refl].
  destruct (_driver w) as [d|] eqn:E; [|apply same_site_refl].
  pose proof (visit_site (urljoin BASE_URL href) d) as Hv.
  destruct (visit _ d) as [r d1]. simpl in *.
  split; simpl; [reflexivity|]. now rewrite E, Hv.
Qed.

Lemma parse_single_product_same product w w' :
  same_site w w' ->
  fst (parse_single_product product w) = fst (parse_single_product product w').
Proof.
  intros H. unfold parse_single_product, parse_hdd_block_prices.
  pose proof (parse_hdd_block_prices_try_same product w w' H) as E.
  destruct (parse_hdd_block_prices_try product w) as [[?|?] ?],
           (parse_hdd_block_prices_try product w') as [[?|?] ?];
    simpl in *; congruence.
Qed.

Lemma parse_single_product_keeps product w :
  same_site w (snd (parse_single_product product w)).
Proof.
  unfold parse_single_product, parse_hdd_block_prices.
  pose proof (parse_hdd_block_prices_try_keeps product w) as H.
  now destruct (parse_hdd_block_prices_try product w) as [[?|?] ?].
Qed.

Lemma parse_each_keeps products w :
  same_site w (snd (parse_each products w)).
Proof.
  revert w. induction products as [|b rest IH]; intros w; simpl.
  - apply same_site_refl.
  - unfold bind. pose proof (parse_single_product_keeps b w) as Hb.
    destruct (parse_single_product b w) as [[p|e] w1]; simpl in *; [|assumption].
    pose proof (IH w1) as Hr.
    destruct (parse_each rest w1) as [[ps|e] w2]; simpl in *;
      eapply same_site_trans; eauto.
Qed.

(** A page's products come out one per card, in the order of the cards,
    each as [parse_single_product] builds it. *)
Lemma parse_each_in_order products :
  forall w0 w ps,
  same_site w0 w ->
  fst (parse_each products w) = Ok ps ->
  Forall2 (fun p block => fst (parse_single_product block w0) = Ok p) ps products.
Proof.
  induction products as [|b rest IH]; intros w0 w ps Hw; simpl.
  - unfold ret. simpl. intros [= <-]. constructor.
  - unfold bind.
    pose proof (parse_single_product_keeps b w) as Hb.
    pose proof (parse_single_product_same b w0 w Hw) as Hsame.
    destruct (parse_single_product b w) as [[p|e] w1]; simpl in *; [|discriminate].
    specialize (IH w0 w1).
    destruct (parse_each rest w1) as [[ps'|e] w2]; simpl in *; [|discriminate].
    intros [= <-]. constructor; [assumption|].
    apply IH; [eapply same_site_trans; eauto | reflexivity].
Qed.

(** A card that cannot be parsed stops the whole page. *)
Lemma parse_each_raises products product :
  product ∈ products ->
  (forall w, raises (fst (parse_single_product product w))) ->
  forall w, raises (fst (parse_each products w)).
Proof.
  intros Hin Hbad. induction products as [|b rest IH]; intros w.
  - inversion Hin.
  - simpl. unfold bind.
    apply elem_of_cons in Hin as [<-|Hin].
    + destruct (Hbad w) as [e He].
      destruct (parse_single_product product w) as [[p|e'] w1];
        simpl in *; [discriminate|]. now exists e'.
    + destruct (parse_single_product b w) as [[p|e'] w1]; simpl;
        [|now exists e'].
      destruct (IH Hin w1) as [e He].
      destruct (parse_each rest w1) as [[ps|e'] w2]; simpl in *;
        [discriminate|]. now exists e'.
Qed.

End Frame.

(** ** get_laptop_page_products *)

Section Orchestrator.

Import Soup Scraper Spec.

Lemma get_laptop_page_products_fst w :
  fst (get_laptop_page_products w)
  = match fst (get_laptop_page_products_try w) with
    | Ok all_products => all_products
    | Raise _ => []
    end.
Proof.
  unfold get_laptop_page_products.
  now destruct (get_laptop_page_products_try w) as [[?|?] ?].
Qed.

Lemma fetch_fails_same w w' params :
  same_site w w' -> fetch_fails w params -> fetch_fails w' params.
Proof. intros [Hs _]. unfold fetch_fails. now rewrite Hs. Qed.

Lemma in_range lo hi i : lo <= i < hi -> i ∈ range lo hi.
Proof.
  intros H. unfold range.
  apply (list_elem_of_fmap_2' _ _ (Z.to_nat (i - lo))).
  - apply elem_of_seq. lia.
  - lia.
Qed.

(** Once the loop is to fetch a page that cannot be fetched, it raises, at
    that page or before. *)
Lemma for_pages_fetch_failure pages page_num :
  page_num ∈ pages ->
  forall all_products w,
  fetch_fails w (Some page_num) ->
  raises (fst (for_pages pages all_products w)).
Proof.
  induction pages as [|p rest IH]; intros Hin all_products w Hfail.
  - inversion Hin.
  - simpl. unfold bind, session_get, lift.
    destruct (session w LAPTOP_URL (Some p)) as [r|e] eqn:Hget; simpl;
      [|now exists e].
    destruct (Http.raise_for_status r) as [[]|e] eqn:Hst; simpl;
      [|now exists e].
    pose proof (parse_each_keeps (select (ByClass "card-body") (Http.content r)) w)
      as Hkeep.
    unfold get_single_page_products.
    destruct (parse_each _ w) as [[ps|e] w1]; simpl in *; [|now exists e].
    apply elem_of_cons in Hin as [->|Hin].
    + exfalso. unfold fetch_fails in Hfail. rewrite Hget in Hfail.
      destruct Hfail as [e He]. congruence.
    + apply IH; [assumption|]. eapply fetch_fails_same; eauto.
Qed.

(** C1: when the first listing page cannot be fetched, or any page from 2
    up to the page count cannot, [get_laptop_page_products] returns the
    empty list: what earlier pages gave is dropped. *)
Theorem get_laptop_page_products_fetch_failure w :
  (fetch_fails w None -> fst (get_laptop_page_products w) = [])
  /\
  (forall first N page_num,
      session w LAPTOP_URL None = Ok first ->
      get_num_pages (Http.content first) = Ok N ->
      2 <= page_num <= N ->
      fetch_fails w (Some page_num) ->
      fst (get_laptop_page_products w) = []).
Proof.
  split.
  - intros Hfail. rewrite get_laptop_page_products_fst.
    unfold get_laptop_page_products_try, bind, session_get, lift.
    unfold fetch_fails in Hfail.
    destruct (session w LAPTOP_URL None) as [r|e]; simpl; [|reflexivity].
    destruct Hfail as [e ->]. reflexivity.
  - intros first N page_num Hfirst HN Hrange Hfail.
    rewrite get_laptop_page_products_fst.
    unfold get_laptop_page_products_try, bind, session_get, lift.
    rewrite Hfirst. simpl.
    destruct (Http.raise_for_status first) as [[]|e]; simpl; [|reflexivity].
    unfold get_single_page_products.
    pose proof (parse_each_keeps
                  (select (ByClass "card-body") (Http.content first)) w) as Hkeep.
    destruct (parse_each _ w) as [[ps|e] w1]; simpl in *; [|reflexivity].
    rewrite HN. simpl.
    destruct (for_pages_fetch_failure (range 2 (N + 1)) page_num
                (in_range 2 (N + 1) page_num ltac:(lia)) ps w1
                (fetch_fails_same _ _ _ Hkeep Hfail)) as [e He].
    destruct (for_pages _ ps w1) as [[?|?] ?]; simpl in *;
      [discriminate|reflexivity].
Qed.

Lemma get_laptop_page_products_fetch_failure_witness :
  fst (get_laptop_page_products
         (Fixtures.world Fixtures.plain_site Fixtures.nothing_reachable)) = []
  /\ fst (get_laptop_page_products
            (Fixtures.world Fixtures.plain_site Fixtures.second_page_down)) = []
  /\ fst (get_laptop_page_products
            (Fixtures.world Fixtures.plain_site Fixtures.third_page_503)) = [].
Proof.
  split; [|split].
  - apply (proj1 (get_laptop_page_products_fetch_failure _)). exact I.
  - apply (proj2 (get_laptop_page_products_fetch_failure _)
             (Http.mkResponse 200 Fixtures.first_page) 3 2).
    + reflexivity.
    + reflexivity.
    + lia.
    + exact I.
  - apply (proj2 (get_laptop_page_products_fetch_failure _)
             (Http.mkResponse 200 Fixtures.first_page) 3 3).
    + reflexivity.
    + reflexivity.
    + lia.
    + exists RequestException. reflexivity.
Defined.

(** The pages 2..N, when the loop got through them: the responses it was
    given and the products it added, card by card. *)
Lemma for_pages_in_order pages :
  forall w0 w all_products result,
  same_site w0 w ->
  fst (for_pages pages all_products w) = Ok result ->
  exists later more,
    Forall2 (fun i r => session w0 LAPTOP_URL (Some i) = Ok r) pages later
    /\ result = all_products ++ more
    /\ Forall2 (fun p block => fst (parse_single_product block w0) = Ok p)
         more
         (flat_map (fun r => select (ByClass "card-body") (Http.content r)) later).
Proof.
  induction pages as [|i rest IH]; intros w0 w all_products result Hw; simpl.
  - unfold ret. simpl. intros [= <-].
    exists [], []. rewrite app_nil_r. repeat constructor.
  - unfold bind, session_get, lift.
    destruct (session w LAPTOP_URL (Some i)) as [r|e] eqn:Hget; simpl;
      [|discriminate].
    destruct (Http.raise_for_status r) as [[]|e]; simpl; [|discriminate].
    unfold get_single_page_products.
    pose proof (parse_each_keeps (select (ByClass "card-body") (Http.content r)) w)
      as Hkeep.
    pose proof (parse_each_in_order
                  (select (ByClass "card-body") (Http.content r)) w0 w) as Hpage.
    destruct (parse_each _ w) as [[ps|e] w1]; simpl in *; [|discriminate].
    intros Hrest.
    destruct (IH w0 w1 _ _ (same_site_trans _ _ _ Hw Hkeep) Hrest)
      as (later & more & Hlater & -> & Hmore).
    exists (r :: later), (ps ++ more). repeat split.
    + constructor; [|assumption]. destruct Hw as [-> _]. assumption.
    + now rewrite app_assoc.
    + simpl. apply Forall2_app; [|assumption]. now apply Hpage.
Qed.

(** C6: after a run in which nothing raised, the list holds one product
    per card: the cards of page 1 in document order, then those of page 2,
    and so on up to page N, each parsed by [parse_single_product]; its
    length is the number of cards on all pages together (2 + 2 + 2 = 6 in
    the three-page scenario). *)
Theorem get_laptop_page_products_order w all_products :
  fst (get_laptop_page_products_try w) = Ok all_products ->
  fst (get_laptop_page_products w) = all_products
  /\ exists first N later,
       session w LAPTOP_URL None = Ok first
       /\ get_num_pages (Http.content first) = Ok N
       /\ Forall2 (fun i r => session w LAPTOP_URL (Some i) = Ok r)
            (range 2 (N + 1)) later
       /\ Forall2 (fun p block => fst (parse_single_product block w) = Ok p)
            all_products
            (flat_map (fun r => select (ByClass "card-body") (Http.content r))
                      (first :: later))
       /\ length all_products
          = length (flat_map
                      (fun r => select (ByClass "card-body") (Http.content r))
                      (first :: later)).
Proof.
  intros Hrun. split; [now rewrite get_laptop_page_products_fst, Hrun|].
  revert Hrun.
  unfold get_laptop_page_products_try, bind, session_get, lift.
  destruct (session w LAPTOP_URL None) as [first|e] eqn:Hfirst; simpl;
    [|discriminate].
  destruct (Http.raise_for_status first) as [[]|e]; simpl; [|discriminate].
  unfold get_single_page_products.
  pose proof (parse_each_keeps
                (select (ByClass "card-body") (Http.content first)) w) as Hkeep.
  pose proof (parse_each_in_order
                (select (ByClass "card-body") (Http.content first)) w w)
    as Hpage.
  destruct (parse_each _ w) as [[ps|e] w1]; simpl in *; [|discriminate].
  destruct (get_num_pages (Http.content first)) as [N|e] eqn:HN; simpl;
    [|discriminate].
  intros Hrest.
  destruct (for_pages_in_order _ w w1 _ _ Hkeep Hrest)
    as (later & more & Hlater & -> & Hmore).
  assert (Hall : Forall2
                   (fun p block => fst (parse_single_product block w) = Ok p)
                   (ps ++ more)
                   (flat_map
                      (fun r => select (ByClass "card-body") (Http.content r))
                      (first :: later))).
  { simpl. apply Forall2_app; [|assumption].
    apply Hpage; [apply same_site_refl | reflexivity]. }
  exists first, N, later.
  repeat (split; [first [assumption | reflexivity]|]).
  apply (Forall2_length _ _ _ Hall).
Qed.

Lemma get_laptop_page_products_order_witness :
  fst (get_laptop_page_products
         (Fixtures.world Fixtures.plain_site Fixtures.three_pages))
  = Fixtures.six_products
  /\ length Fixtures.six_products = 6%nat
  /\ map title Fixtures.six_products
     = ["Laptop 1"; "Laptop 2"; "Laptop 3"; "Laptop 4"; "Laptop 5"; "Laptop 6"].
Proof.
  split; [|split; reflexivity].
  apply (proj1 (get_laptop_page_products_order
                  (Fixtures.world Fixtures.plain_site Fixtures.three_pages)
                  Fixtures.six_products ltac:(vm_compute; reflexivity))).
Defined.

End Orchestrator.

(** ** parse_single_product *)

Section ProductParser.

Import Soup Scraper Spec.

Lemma parse_single_product_fst product w :
  fst (parse_single_product product w)
  = build_product product (fst (parse_hdd_block_prices product w)).
Proof.
  unfold parse_single_product.
  now destruct (parse_hdd_block_prices product w).
Qed.

(** C7: on a block where every extraction rule applies, the product is
    built field by field as documented: the [title] attribute of the title
    element, the price text without the dollar sign read as a decimal, the
    first word of the review count read as an integer (and description and
    rating likewise), and [additional_info] with the single key
    ["hdd_prices"]. *)
Theorem parse_single_product_fields
    product w t_title a t_descr t_price p t_rating s_rating r
    t_reviews first rest n :
  select_one (ByClass "title") product = Some t_title ->
  Soup.get "title" t_title = Some a ->
  select_one (ByClass "description") product = Some t_descr ->
  select_one (ByClass "price") product = Some t_price ->
  Py.float (Py.remove_char "$" (text t_price)) = Ok p ->
  select_one (ByAttr "data-rating") product = Some t_rating ->
  Soup.get "data-rating" t_rating = Some s_rating ->
  Py.int s_rating = Ok r ->
  select_one (ByClass "review-count") product = Some t_reviews ->
  Py.split (text t_reviews) = first :: rest ->
  Py.int first = Ok n ->
  exists product_,
    fst (parse_single_product product w) = Ok product_
    /\ title product_ = a
    /\ description product_ = text t_descr
    /\ price product_ = p
    /\ rating product_ = r
    /\ num_of_reviews product_ = n
    /\ additional_info product_
       = {[ "hdd_prices" := fst (parse_hdd_block_prices product w) ]}
    /\ dom (additional_info product_) = {[ "hdd_prices" ]}.
Proof.
  intros Ht Ha Hd Hp Hpv Hr Hrs Hrv Hc Hsp Hn.
  eexists. split.
  - rewrite parse_single_product_fst.
    unfold build_product, getitem_of, text_of, getitem, Py.index0.
    rewrite Ht, Ha, Hd, Hp. simpl. rewrite Hpv, Hr. simpl.
    rewrite Hrs. simpl. rewrite Hrv, Hc. simpl. rewrite Hsp. simpl.
    rewrite Hn. simpl. reflexivity.
  - simpl. repeat split.
Qed.

Lemma parse_single_product_fields_witness :
  exists product_,
    fst (parse_single_product (Fixtures.laptop "1")
           (Fixtures.world (Fixtures.site_with Fixtures.hdd_buttons)
                           Fixtures.three_pages)) = Ok product_
    /\ title product_ = "Laptop 1"
    /\ description product_ = "14 inch, 4GB"
    /\ price product_ = Py.FNum (Qmake 29599 100)
    /\ rating product_ = 3
    /\ num_of_reviews product_ = 14
    /\ additional_info product_
       = {[ "hdd_prices" :=
              fst (parse_hdd_block_prices (Fixtures.laptop "1")
                     (Fixtures.world (Fixtures.site_with Fixtures.hdd_buttons)
                                     Fixtures.three_pages)) ]}
    /\ dom (additional_info product_) = {[ "hdd_prices" ]}.
Proof.
  apply (parse_single_product_fields (Fixtures.laptop "1") _
           (Element "a" [("href", "/test-sites/e-commerce/static/product/1");
                         ("class", "title"); ("title", "Laptop 1")]
                    [Fixtures.txt "Laptop..."])
           "Laptop 1"
           (Element "p" [("class", "description card-text")]
                    [Fixtures.txt "14 inch, 4GB"])
           (Element "h4" [("class", "price float-end card-title pull-right")]
                    [Fixtures.txt "$295.99"])
           (Py.FNum (Qmake 29599 100))
           (Element "p" [("data-rating", "3")] [])
           "3" 3
           (Element "p" [("class", "review-count float-end")]
                    [Fixtures.txt "14 reviews"])
           "14" ["reviews"] 14); reflexivity.
Defined.

Ltac run_rules :=
  repeat (simpl;
          match goal with
          | |- raises (Raise _) => eexists; reflexivity
          | H : ?x = _ |- context [?x] => rewrite H
          | |- raises (rbind ?r _) => destruct r; [|eexists; reflexivity]
          end).

(** A block on which a rule fails makes the constructor call raise. *)
Lemma build_product_raises product hdd_prices :
  parse_failure product -> raises (build_product product hdd_prices).
Proof.
  intros H.
  unfold build_product, getitem_of, text_of, getitem, of_option, Py.index0.
  destruct H; run_rules.
Qed.

Lemma float_raises_value_error s e : Py.float s = Raise e -> e = ValueError.
Proof.
  unfold Py.float. destruct (Py.float_of_chars _); simpl; congruence.
Qed.

Lemma int_raises_value_error s e : Py.int s = Raise e -> e = ValueError.
Proof.
  unfold Py.int. destruct (Py.int_of_chars _); simpl; congruence.
Qed.

(** What [select_one] finds does match the selector. *)
Lemma select_one_matches sel t x :
  select_one sel t = Some x -> matches sel x = true.
Proof.
  unfold select_one, select. intros H.
  destruct (List.filter (matches sel) (descendants t)) as [|y l] eqn:E;
    [discriminate|].
  injection H as ->.
  assert (Hin : In x (List.filter (matches sel) (descendants t)))
    by (rewrite E; now left).
  now apply filter_In in Hin.
Qed.

Lemma select_one_attr a t x :
  select_one (ByAttr a) t = Some x -> exists v, Soup.get a x = Some v.
Proof.
  intros H. apply select_one_matches in H.
  destruct x as [s|n attrs cs]; simpl in H; [discriminate|].
  simpl. destruct (assoc a attrs) as [v|]; [eauto|discriminate].
Qed.

(** The constructor call raises on no other blocks. *)
Lemma build_product_raises_inv product hdd_prices :
  raises (build_product product hdd_prices) -> parse_failure product.
Proof.
  intros [e He].
  unfold build_product, getitem_of, text_of, getitem, of_option, Py.index0 in He.
  destruct (select_one (ByClass "title") product) as [t|] eqn:Ht;
    [|now apply no_title_element].
  destruct (Soup.get "title" t) as [a|] eqn:Ha;
    [|now apply (no_title_attribute _ t)].
  simpl in He.
  destruct (select_one (ByClass "description") product) as [td|] eqn:Hd;
    [|now apply no_description_element].
  simpl in He.
  destruct (select_one (ByClass "price") product) as [tp|] eqn:Hp;
    [|now apply no_price_element].
  simpl in He.
  destruct (Py.float (Py.remove_char "$" (text tp))) as [pv|e1] eqn:Hf.
  2:{ apply (price_not_numeric _ tp); [assumption|].
      now rewrite Hf, (float_raises_value_error _ _ Hf). }
  simpl in He.
  destruct (select_one (ByAttr "data-rating") product) as [tr|] eqn:Hr;
    [|now apply no_rating_element].
  destruct (select_one_attr _ _ _ Hr) as [s Hs]. rewrite Hs in He.
  simpl in He.
  destruct (Py.int s) as [rv|e2] eqn:Hi.
  2:{ apply (rating_not_numeric _ tr s); [assumption..|].
      now rewrite Hi, (int_raises_value_error _ _ Hi). }
  simpl in He.
  destruct (select_one (ByClass "review-count") product) as [tc|] eqn:Hc;
    [|now apply no_review_count_element].
  simpl in He.
  destruct (Py.split (text tc)) as [|first rest] eqn:Hsp;
    [now apply (review_count_blank _ tc)|].
  simpl in He.
  destruct (Py.int first) as [n|e3] eqn:Hn; [discriminate|].
  apply (review_count_not_numeric _ tc first rest); [assumption..|].
  now rewrite Hn, (int_raises_value_error _ _ Hn).
Qed.

(** C9, as the code has it: [parse_single_product] raises exactly on the
    blocks on which one of its own extraction rules fails; nothing is
    caught at this layer, and the exception goes on through the caller's
    list comprehension.  A failure inside [parse_hdd_block_prices] (a
    title link without [href], a browser error) is caught there: the
    product is then built with the empty price mapping. *)
Theorem parse_single_product_propagates product :
  (forall w, raises (fst (parse_single_product product w))
             <-> parse_failure product)
  /\ (parse_failure product ->
      forall w page_soup,
        product ∈ select (ByClass "card-body") page_soup ->
        raises (fst (get_single_page_products page_soup w)))
  /\ (forall w e,
        fst (parse_hdd_block_prices_try product w) = Raise e ->
        fst (parse_single_product product w) = build_product product ∅).
Proof.
  split; [|split].
  - intros w. rewrite parse_single_product_fst. split.
    + apply build_product_raises_inv.
    + apply build_product_raises.
  - intros H w page_soup Hin. unfold get_single_page_products.
    apply (parse_each_raises _ product); [assumption|].
    intros w'. rewrite parse_single_product_fst. now apply build_product_raises.
  - intros w e He.
    now rewrite parse_single_product_fst, parse_hdd_block_prices_fst, He.
Qed.

Lemma parse_single_product_propagates_witness :
  raises (fst (parse_single_product Fixtures.broken_card
                 (Fixtures.world Fixtures.plain_site Fixtures.three_pages)))
  /\ raises (fst (get_single_page_products
                    (Fixtures.document [Fixtures.laptop "1"; Fixtures.broken_card])
                    (Fixtures.world Fixtures.plain_site Fixtures.three_pages)))
  /\ fst (parse_single_product Fixtures.card_without_href
            (Fixtures.world (Fixtures.site_with Fixtures.hdd_buttons)
                            Fixtures.three_pages))
     = build_product Fixtures.card_without_href ∅.
Proof.
  assert (Hbad : parse_failure Fixtures.broken_card).
  { apply (review_count_not_numeric _
             (Element "p" [("class", "review-count float-end")]
                      [Fixtures.txt "no reviews"]) "no" ["reviews"]);
      reflexivity. }
  split; [|split].
  - apply (proj1 (parse_single_product_propagates Fixtures.broken_card)).
    exact Hbad.
  - apply (proj1 (proj2 (parse_single_product_propagates Fixtures.broken_card))
             Hbad).
    simpl. apply list_elem_of_further, list_elem_of_here.
  - apply (proj2 (proj2 (parse_single_product_propagates
                           Fixtures.card_without_href)) _ KeyError).
    reflexivity.
Defined.

(** C9 as stated fails: the title link of this block has no [href], the
    KeyError is raised inside [parse_hdd_block_prices] and caught there,
    and [parse_single_product] returns a product. *)
Lemma parse_single_product_propagates_counterexample :
  let w := Fixtures.world (Fixtures.site_with Fixtures.hdd_buttons)
                          Fixtures.three_pages in
  getitem_of (select_one (ByClass "title") Fixtures.card_without_href) "href"
  = Raise KeyError
  /\ fst (parse_hdd_block_prices_try Fixtures.card_without_href w)
     = Raise KeyError
  /\ fst (parse_single_product Fixtures.card_without_href w)
     = Ok (mkProduct "Laptop 7" "14 inch, 4GB" (Py.FNum (Qmake 29599 100))
                     3 14 {[ "hdd_prices" := ∅ ]}).
Proof.
  repeat split; vm_compute; reflexivity.
Qed.

End ProductParser.

(** ** write_products_to_csv *)

Section RecordWriter.

Import Scraper.

(** C8: the header is the list of declared field names, in declaration
    order; every data row holds the values of those same fields in that
    same order; header and rows all have as many cells as [Product] has
    declared fields.  For the six fields of [Product], in the order of
    the class body: title, description, price, rating, num_of_reviews,
    additional_info. *)
Theorem write_products_to_csv_columns products :
  exists header rows,
    write_products_to_csv products = header :: rows
    /\ header = map (fun f => VStr (name f)) fields_Product
    /\ rows = map (fun product => map (fun f => getattr f product) fields_Product)
                  products
    /\ length header = length fields_Product
    /\ Forall (fun row => length row = length fields_Product) rows
    /\ length fields_Product = 6%nat
    /\ header = [ VStr "title"; VStr "description"; VStr "price";
                  VStr "rating"; VStr "num_of_reviews"; VStr "additional_info" ]
    /\ rows = map (fun product =>
                     match product with
                     | mkProduct title_ description_ price_ rating_
                                 num_of_reviews_ additional_info_ =>
                         [ VStr title_; VStr description_; VFloat price_;
                           VInt rating_; VInt num_of_reviews_;
                           VDict additional_info_ ]
                     end) products.
Proof.
  exists (map VStr PRODUCT_FIELDS), (map astuple products).
  split; [reflexivity|].
  split; [unfold PRODUCT_FIELDS; now rewrite map_map|].
  split; [reflexivity|].
  split; [unfold PRODUCT_FIELDS; now rewrite !length_map|].
  split.
  { apply List.Forall_forall. intros row [product [<- _]]%in_map_iff.
    unfold astuple. apply length_map. }
  split; [reflexivity|]. split; [reflexivity|].
  apply map_ext. intros []. reflexivity.
Qed.

End RecordWriter.

(** * Further properties *)

(** ** get_home_products *)

Section HomePage.

Import Soup Scraper Spec Program Vocabulary.

Lemma get_home_products_fst w :
  fst (get_home_products w)
  = match fst (get_home_products_try w) with
    | Ok products => products
    | Raise _ => []
    end.
Proof.
  unfold get_home_products.
  now destruct (get_home_products_try w) as [[?|?] ?].
Qed.

Lemma parse_failure_raises product :
  parse_failure product ->
  forall w, raises (fst (parse_single_product product w)).
Proof.
  intros H w. rewrite parse_single_product_fst. now apply build_product_raises.
Qed.

(** X1: when the home page is fetched and every card parses, the list has
    one product per card of the home page, in document order. *)
Theorem get_home_products_in_order w response products :
  session w HOME_URL None = Ok response ->
  Http.raise_for_status response = Ok tt ->
  fst (parse_each (select (ByClass "card-body") (Http.content response)) w)
  = Ok products ->
  fst (get_home_products w) = products
  /\ Forall2 (fun p block => fst (parse_single_product block w) = Ok p)
       products (select (ByClass "card-body") (Http.content response)).
Proof.
  intros Hget Hst Hparse. split.
  - rewrite get_home_products_fst.
    unfold get_home_products_try, bind, session_get, lift.
    rewrite Hget. simpl. rewrite Hst. simpl.
    destruct (parse_each _ w) as [[ps|e] w1]; simpl in *; congruence.
  - eapply parse_each_in_order; [apply same_site_refl | eassumption].
Qed.

Lemma get_home_products_in_order_witness :
  fst (get_home_products
         (Fixtures.world Fixtures.plain_site (always Fixtures.second_page)))
  = [Fixtures.parsed_laptop "3"; Fixtures.parsed_laptop "4"].
Proof.
  apply (get_home_products_in_order _
           (Http.mkResponse 200 Fixtures.second_page)
           [Fixtures.parsed_laptop "3"; Fixtures.parsed_laptop "4"]).
  - reflexivity.
  - reflexivity.
  - vm_compute. reflexivity.
Defined.

(** X2: [get_home_products] is all or nothing: it returns the empty list
    when the home page cannot be fetched, and also when a single card of
    the page fails to parse, whatever the other cards hold. *)
Theorem get_home_products_all_or_nothing w :
  (home_fetch_fails w -> fst (get_home_products w) = [])
  /\ (forall response product,
        session w HOME_URL None = Ok response ->
        product ∈ select (ByClass "card-body") (Http.content response) ->
        parse_failure product ->
        fst (get_home_products w) = []).
Proof.
  split.
  - intros Hfail. rewrite get_home_products_fst.
    unfold get_home_products_try, bind, session_get, lift.
    unfold home_fetch_fails in Hfail.
    destruct (session w HOME_URL None) as [r|e]; simpl; [|reflexivity].
    destruct Hfail as [e ->]. reflexivity.
  - intros response product Hget Hin Hbad.
    rewrite get_home_products_fst.
    unfold get_home_products_try, bind, session_get, lift.
    rewrite Hget. simpl.
    destruct (Http.raise_for_status response) as [[]|e]; simpl; [|reflexivity].
    destruct (parse_each_raises _ product Hin (parse_failure_raises _ Hbad) w)
      as [e He].
    destruct (parse_each _ w) as [[ps|e'] w1]; simpl in *;
      [discriminate|reflexivity].
Qed.

Lemma get_home_products_all_or_nothing_witness :
  fst (get_home_products
         (Fixtures.world Fixtures.plain_site Fixtures.nothing_reachable)) = []
  /\ fst (get_home_products
            (Fixtures.world Fixtures.plain_site (always page_with_broken_card)))
     = [].
Proof.
  split.
  - apply (proj1 (get_home_products_all_or_nothing _)). exact I.
  - apply (proj2 (get_home_products_all_or_nothing _)
             (Http.mkResponse 200 page_with_broken_card) Fixtures.broken_card).
    + reflexivity.
    + simpl. apply list_elem_of_further, list_elem_of_here.
    + apply (review_count_not_numeric _
               (Element "p" [("class", "review-count float-end")]
                        [Fixtures.txt "no reviews"]) "no" ["reviews"]);
        reflexivity.
Defined.

End HomePage.

(** ** More on get_laptop_page_products *)

Section Run.

Import Soup Scraper Spec Program Vocabulary.

(** A malformed card on a page the loop is to fetch makes it raise, at
    that page or before. *)
Lemma for_pages_parse_failure pages page_num r product :
  page_num ∈ pages ->
  product ∈ select (ByClass "card-body") (Http.content r) ->
  parse_failure product ->
  forall all_products w,
  session w LAPTOP_URL (Some page_num) = Ok r ->
  raises (fst (for_pages pages all_products w)).
Proof.
  intros Hin Hcard Hbad.
  induction pages as [|p rest IH]; intros all_products w Hget.
  - inversion Hin.
  - simpl. unfold bind, session_get, lift.
    destruct (session w LAPTOP_URL (Some p)) as [r'|e] eqn:Hget'; simpl;
      [|now exists e].
    destruct (Http.raise_for_status r') as [[]|e]; simpl; [|now exists e].
    unfold get_single_page_products.
    pose proof (parse_each_keeps (select (ByClass "card-body") (Http.content r')) w)
      as Hkeep.
    destruct (parse_each _ w) as [[ps|e] w1] eqn:Hrun; simpl in *;
      [|now exists e].
    apply elem_of_cons in Hin as [->|Hin].
    + exfalso. assert (r' = r) as -> by congruence.
      destruct (parse_each_raises _ product Hcard
                  (parse_failure_raises _ Hbad) w) as [e He].
      rewrite Hrun in He. discriminate.
    + apply IH; [assumption|]. destruct Hkeep as [<- _]. assumption.
Qed.

(** X3: one malformed card, on the first page or on any page from 2 up to
    the page count, makes [get_laptop_page_products] return the empty
    list. *)
Theorem get_laptop_page_products_parse_failure w first product :
  session w LAPTOP_URL None = Ok first ->
  parse_failure product ->
  (product ∈ select (ByClass "card-body") (Http.content first) ->
   fst (get_laptop_page_products w) = [])
  /\ (forall N page_num r,
        get_num_pages (Http.content first) = Ok N ->
        2 <= page_num <= N ->
        session w LAPTOP_URL (Some page_num) = Ok r ->
        product ∈ select (ByClass "card-body") (Http.content r) ->
        fst (get_laptop_page_products w) = []).
Proof.
  intros Hfirst Hbad. split.
  - intros Hin. rewrite get_laptop_page_products_fst.
    unfold get_laptop_page_products_try, bind, session_get, lift.
    rewrite Hfirst. simpl.
    destruct (Http.raise_for_status first) as [[]|e]; simpl; [|reflexivity].
    unfold get_single_page_products.
    destruct (parse_each_raises _ product Hin (parse_failure_raises _ Hbad) w)
      as [e He].
    destruct (parse_each _ w) as [[ps|e'] w1]; simpl in *;
      [discriminate|reflexivity].
  - intros N page_num r HN Hrange Hget Hin.
    rewrite get_laptop_page_products_fst.
    unfold get_laptop_page_products_try, bind, session_get, lift.
    rewrite Hfirst. simpl.
    destruct (Http.raise_for_status first) as [[]|e]; simpl; [|reflexivity].
    unfold get_single_page_products.
    pose proof (parse_each_keeps
                  (select (ByClass "card-body") (Http.content first)) w) as Hkeep.
    destruct (parse_each _ w) as [[ps|e] w1]; simpl in *; [|reflexivity].
    rewrite HN. simpl.
    assert (Hget1 : session w1 LAPTOP_URL (Some page_num) = Ok r)
      by (destruct Hkeep as [<- _]; assumption).
    destruct (for_pages_parse_failure (range 2 (N + 1)) page_num r product
                (in_range 2 (N + 1) page_num ltac:(lia)) Hin Hbad ps w1 Hget1)
      as [e He].
    destruct (for_pages _ ps w1) as [[?|?] ?]; simpl in *;
      [discriminate|reflexivity].
Qed.

Lemma get_laptop_page_products_parse_failure_witness :
  fst (get_laptop_page_products
         (Fixtures.world Fixtures.plain_site (always page_with_broken_card))) = []
  /\ fst (get_laptop_page_products
            (Fixtures.world Fixtures.plain_site broken_second_page)) = [].
Proof.
  assert (Hbad : parse_failure Fixtures.broken_card).
  { apply (review_count_not_numeric _
             (Element "p" [("class", "review-count float-end")]
                      [Fixtures.txt "no reviews"]) "no" ["reviews"]);
      reflexivity. }
  split.
  - apply (proj1 (get_laptop_page_products_parse_failure
                    (Fixtures.world Fixtures.plain_site
                                    (always page_with_broken_card))
                    (Http.mkResponse 200 page_with_broken_card)
                    Fixtures.broken_card eq_refl Hbad)).
    simpl. apply list_elem_of_further, list_elem_of_here.
  - apply (proj2 (get_laptop_page_products_parse_failure
                    (Fixtures.world Fixtures.plain_site broken_second_page)
                    (Http.mkResponse 200 Fixtures.first_page)
                    Fixtures.broken_card eq_refl Hbad)
             3 2 (Http.mkResponse 200 page_with_broken_card)).
    + reflexivity.
    + lia.
    + reflexivity.
    + simpl. apply list_elem_of_further, list_elem_of_here.
Defined.

(** X4: a pagination control with fewer than two entries on the first
    page makes [get_laptop_page_products] return the empty list, although
    the first page itself was fetched: its products are lost to the
    IndexError of [get_num_pages]. *)
Theorem get_laptop_page_products_bad_pagination w first pagination :
  session w LAPTOP_URL None = Ok first ->
  select_one (ByClass "pagination") (Http.content first) = Some pagination ->
  (length (select (ByName "li") pagination) < 2)%nat ->
  fst (get_laptop_page_products w) = [].
Proof.
  intros Hfirst Hp Hlen. rewrite get_laptop_page_products_fst.
  unfold get_laptop_page_products_try, bind, session_get, lift.
  rewrite Hfirst. simpl.
  destruct (Http.raise_for_status first) as [[]|e]; simpl; [|reflexivity].
  destruct (get_single_page_products _ w) as [[ps|e] w1]; simpl; [|reflexivity].
  unfold get_num_pages. rewrite Hp, (index_neg2_short _ Hlen). reflexivity.
Qed.

Lemma get_laptop_page_products_bad_pagination_witness :
  fst (get_single_page_products Fixtures.short_pagination_page
         (Fixtures.world Fixtures.plain_site
                         (always Fixtures.short_pagination_page)))
  = Ok [Fixtures.parsed_laptop "1"]
  /\ fst (get_laptop_page_products
            (Fixtures.world Fixtures.plain_site
                            (always Fixtures.short_pagination_page))) = [].
Proof.
  split; [vm_compute; reflexivity|].
  apply (get_laptop_page_products_bad_pagination _
           (Http.mkResponse 200 Fixtures.short_pagination_page)
           (Element "ul" [("class", "pagination")] [Fixtures.page_item "1"])).
  - reflexivity.
  - reflexivity.
  - simpl. lia.
Defined.

(** X5: when the page count read from the first page is 1 or less (no
    pagination control, or an entry reading 1, 0 or a negative number), no
    further page is asked for and the result is what the first page
    gives. *)
Theorem get_laptop_page_products_single_page w first N :
  session w LAPTOP_URL None = Ok first ->
  Http.raise_for_status first = Ok tt ->
  get_num_pages (Http.content first) = Ok N ->
  N <= 1 ->
  get_laptop_page_products w
  = match get_single_page_products (Http.content first) w with
    | (Ok products, w') => (products, w')
    | (Raise _, w') => ([], w')
    end.
Proof.
  intros Hfirst Hst HN Hle.
  unfold get_laptop_page_products, get_laptop_page_products_try,
    bind, session_get, lift.
  rewrite Hfirst. simpl. rewrite Hst. simpl.
  destruct (get_single_page_products _ w) as [[ps|e] w1]; simpl; [|reflexivity].
  rewrite HN. simpl.
  unfold range. replace (Z.to_nat (N + 1 - 2)) with 0%nat by lia.
  reflexivity.
Qed.

Lemma get_laptop_page_products_single_page_witness :
  fst (get_laptop_page_products
         (Fixtures.world Fixtures.plain_site (always Fixtures.second_page)))
  = [Fixtures.parsed_laptop "3"; Fixtures.parsed_laptop "4"].
Proof.
  rewrite (get_laptop_page_products_single_page
             (Fixtures.world Fixtures.plain_site (always Fixtures.second_page))
             (Http.mkResponse 200 Fixtures.second_page) 1
             eq_refl eq_refl eq_refl ltac:(lia)).
  vm_compute. reflexivity.
Defined.

(** X6: whatever else the pagination control lists (a "previous" entry,
    gaps), the page count is [int] of the text of the entry before the
    last one: a number there is returned, anything else raises as [int]
    does. *)
Theorem get_num_pages_before_last page_soup pagination before e last :
  select_one (ByClass "pagination") page_soup = Some pagination ->
  select (ByName "li") pagination = before ++ [e; last] ->
  get_num_pages page_soup = Py.int (text e).
Proof.
  intros Hp Hli. unfold get_num_pages. rewrite Hp, Hli.
  now rewrite index_neg2_two.
Qed.

Lemma get_num_pages_before_last_witness :
  get_num_pages (Fixtures.document [long_control]) = Ok 20
  /\ get_num_pages (Fixtures.document [dotted_control]) = Raise ValueError.
Proof.
  split.
  - rewrite (get_num_pages_before_last (Fixtures.document [long_control])
               long_control
               [Fixtures.page_item "<"; Fixtures.page_item "1";
                Fixtures.page_item "..."]
               (Fixtures.page_item " 20 ") (Fixtures.page_item ">")
               eq_refl eq_refl).
    reflexivity.
  - rewrite (get_num_pages_before_last (Fixtures.document [dotted_control])
               dotted_control
               [Fixtures.page_item "1"]
               (Fixtures.page_item "...") (Fixtures.page_item ">")
               eq_refl eq_refl).
    reflexivity.
Defined.

End Run.

(** ** More on parse_hdd_block_prices *)

Section PriceExtractor.

Import Soup Browser Scraper Spec Program Vocabulary.

Implicit Types (b button : Button) (buttons : list Button).
Implicit Types (prices : gmap string Py.pyfloat) (d : WebDriver).

(** Where an entry of the dictionary comes from. *)
Lemma for_buttons_ok_keys buttons :
  forall prices d prices' d',
  for_buttons buttons prices d = (Ok prices', d') ->
  forall k p,
  prices' !! k = Some p ->
  prices !! k = Some p
  \/ exists b, b ∈ buttons /\ disabled b = false
               /\ value b = k /\ price_of b = Some p.
Proof.
  induction buttons as [|x rest IH]; simpl; intros prices d prices' d' Hrun k p Hk.
  - unfold ret in Hrun. injection Hrun as <- _. now left.
  - unfold bind in Hrun.
    destruct (read_button x prices d) as [[p1|e] d1] eqn:E; [|discriminate].
    apply read_button_ok_inv in E as (_ & E).
    destruct (IH _ _ _ _ Hrun k p Hk) as [H1|(b & Hb & Hen & Hv & Hp)].
    + destruct E as [[_ ->]|(Hen & q & Hq & ->)]; [now left|].
      destruct (decide (value x = k)) as [Heq|Hne].
      * right. exists x. rewrite Heq, lookup_insert_eq in H1.
        repeat split; [apply list_elem_of_here | assumption.. | congruence].
      * left. now rewrite lookup_insert_ne in H1.
    + right. exists b. repeat split; try assumption.
      now apply list_elem_of_further.
Qed.

(** X7: on every detail page and however the call goes, each entry of the
    returned mapping was read from an enabled button of the page the
    product links to: its key is that button's value and its price the one
    displayed after clicking it. *)
Theorem parse_hdd_block_prices_keys_enabled product_soup w k p :
  fst (parse_hdd_block_prices product_soup w) !! k = Some p ->
  exists href driver pg buttons b,
    getitem_of (select_one (ByClass "title") product_soup) "href" = Ok href
    /\ get_driver w = Some driver
    /\ site driver (urljoin BASE_URL href) = Some pg
    /\ swatches pg = Some buttons
    /\ b ∈ buttons /\ disabled b = false
    /\ value b = k /\ price_of b = Some p.
Proof.
  rewrite parse_hdd_block_prices_fst.
  destruct (getitem_of (select_one (ByClass "title") product_soup) "href")
    as [href|e] eqn:Hhref.
  2:{ unfold parse_hdd_block_prices_try. rewrite Hhref. simpl.
      rewrite lookup_empty. discriminate. }
  destruct (get_driver w) as [driver|] eqn:Hdrv.
  2:{ unfold parse_hdd_block_prices_try. rewrite Hhref, Hdrv. simpl.
      rewrite lookup_empty. discriminate. }
  destruct (site driver (urljoin BASE_URL href)) as [pg|] eqn:Hsite.
  2:{ unfold parse_hdd_block_prices_try. rewrite Hhref, Hdrv.
      unfold visit, bind, Browser.get. rewrite Hsite. simpl.
      rewrite lookup_empty. discriminate. }
  destruct (swatches pg) as [buttons|] eqn:Hsw.
  2:{ unfold parse_hdd_block_prices_try. rewrite Hhref, Hdrv.
      unfold visit, bind, Browser.get, find_swatches_buttons.
      rewrite Hsite. simpl. rewrite Hsw. simpl.
      rewrite lookup_empty. discriminate. }
  rewrite (parse_hdd_block_prices_try_loop _ _ _ _ _ _ Hhref Hdrv Hsite Hsw).
  destruct (for_buttons buttons ∅ _) as [[prices'|e] d'] eqn:Hrun; simpl.
  2:{ rewrite lookup_empty. discriminate. }
  intros Hk.
  destruct (for_buttons_ok_keys _ _ _ _ _ Hrun k p Hk)
    as [H0|(b & Hb & Hen & Hv & Hp)].
  { rewrite lookup_empty in H0. discriminate. }
  exists href, driver, pg, buttons, b. repeat split; assumption.
Qed.

Lemma parse_hdd_block_prices_keys_enabled_witness :
  exists href driver pg buttons b,
    getitem_of (select_one (ByClass "title") (Fixtures.laptop "1")) "href"
    = Ok href
    /\ get_driver (Fixtures.world (Fixtures.site_with Fixtures.hdd_buttons)
                                  Fixtures.three_pages) = Some driver
    /\ site driver (urljoin BASE_URL href) = Some pg
    /\ swatches pg = Some buttons
    /\ b ∈ buttons /\ disabled b = false
    /\ value b = "512" /\ price_of b = Some (Py.FNum (Qmake 33599 100)).
Proof.
  apply (parse_hdd_block_prices_keys_enabled (Fixtures.laptop "1")).
  vm_compute. reflexivity.
Defined.

(** The dictionary after a loop that did not raise, key by key. *)
Lemma for_buttons_ok_last buttons :
  forall prices d prices' d',
  for_buttons buttons prices d = (Ok prices', d') ->
  forall k,
  prices' !! k = match last_price buttons k with
                 | Some p => Some p
                 | None => prices !! k
                 end.
Proof.
  induction buttons as [|x rest IH]; simpl; intros prices d prices' d' Hrun k.
  - unfold ret in Hrun. now injection Hrun as <- _.
  - unfold bind in Hrun.
    destruct (read_button x prices d) as [[p1|e] d1] eqn:E; [|discriminate].
    apply read_button_ok_inv in E as (_ & E).
    rewrite (IH _ _ _ _ Hrun k).
    destruct (last_price rest k) as [p|]; [reflexivity|].
    unfold enabled.
    destruct E as [[-> ->]|(-> & q & Hq & ->)]; simpl; [reflexivity|].
    destruct (String.eqb_spec (value x) k) as [<-|Hne].
    + now rewrite Hq, lookup_insert_eq.
    + now rewrite lookup_insert_ne.
Qed.

(** X8: when every button of the page can be read, the mapping holds, for
    each key, the price displayed after the click on the last enabled
    button with that value: buttons that share a value share one entry,
    and the later one wins. *)
Theorem parse_hdd_block_prices_last_wins product_soup w driver href pg buttons :
  getitem_of (select_one (ByClass "title") product_soup) "href" = Ok href ->
  get_driver w = Some driver ->
  site driver (urljoin BASE_URL href) = Some pg ->
  swatches pg = Some buttons ->
  Forall (fun b => readable b = true) buttons ->
  forall k,
  fst (parse_hdd_block_prices product_soup w) !! k = last_price buttons k.
Proof.
  intros Hhref Hdrv Hsite Hsw Hread k.
  rewrite parse_hdd_block_prices_fst.
  rewrite (parse_hdd_block_prices_try_loop _ _ _ _ _ _ Hhref Hdrv Hsite Hsw).
  destruct (for_buttons_readable buttons Hread ∅
              (mkWebDriver (site driver) (Some pg) (Browser.price pg)))
    as (prices' & d' & Hrun).
  rewrite Hrun. simpl.
  rewrite (for_buttons_ok_last _ _ _ _ _ Hrun k), lookup_empty.
  now destruct (last_price buttons k).
Qed.

Lemma parse_hdd_block_prices_last_wins_witness :
  fst (parse_hdd_block_prices (Fixtures.laptop "1")
         (Fixtures.world (Fixtures.site_with twin_buttons) Fixtures.three_pages))
  !! "128" = Some (Py.FNum (Qmake 20 1))
  /\ size (fst (parse_hdd_block_prices (Fixtures.laptop "1")
                  (Fixtures.world (Fixtures.site_with twin_buttons)
                                  Fixtures.three_pages))) = 1%nat.
Proof.
  split; [|vm_compute; reflexivity].
  rewrite (parse_hdd_block_prices_last_wins (Fixtures.laptop "1")
             (Fixtures.world (Fixtures.site_with twin_buttons) Fixtures.three_pages)
             (Fixtures.browser (Fixtures.site_with twin_buttons))
             "/test-sites/e-commerce/static/product/1"
             (mkDetailPage (Some twin_buttons) (Some "$295.99"))
             twin_buttons eq_refl eq_refl eq_refl eq_refl
             ltac:(repeat constructor) "128").
  vm_compute. reflexivity.
Defined.

(** X9: when the driver was never set, or the block has no title link
    with an [href], the call returns the empty mapping and leaves the
    module state, browser included, exactly as it was. *)
Theorem parse_hdd_block_prices_untouched product_soup w :
  _driver w = None
  \/ raises (getitem_of (select_one (ByClass "title") product_soup) "href") ->
  parse_hdd_block_prices product_soup w = (∅, w).
Proof.
  intros H. unfold parse_hdd_block_prices, parse_hdd_block_prices_try, get_driver.
  destruct (getitem_of _ _) as [href|e]; [|reflexivity].
  destruct H as [->|[e He]]; [reflexivity|discriminate].
Qed.

Lemma parse_hdd_block_prices_untouched_witness :
  parse_hdd_block_prices (Fixtures.laptop "1") (no_driver Fixtures.three_pages)
  = (∅, no_driver Fixtures.three_pages)
  /\ parse_hdd_block_prices (Element "div" [("class", "card-body")] [])
       (Fixtures.world (Fixtures.site_with Fixtures.hdd_buttons)
                       Fixtures.three_pages)
     = (∅, Fixtures.world (Fixtures.site_with Fixtures.hdd_buttons)
                          Fixtures.three_pages).
Proof.
  split.
  - apply parse_hdd_block_prices_untouched. left. reflexivity.
  - apply parse_hdd_block_prices_untouched. right.
    exists TypeError. reflexivity.
Defined.

Lemma read_button_page b prices d :
  page (snd (read_button b prices d)) = page d.
Proof.
  unfold read_button, bind, get_property_disabled, get_property_value,
    click, find_price_text, lift, ret.
  destruct (stale b); simpl; [reflexivity|].
  destruct (disabled b); simpl; [reflexivity|].
  destruct (price_after_click b); simpl; [|reflexivity].
  destruct (Py.float _); reflexivity.
Qed.

Lemma for_buttons_page buttons prices d :
  page (snd (for_buttons buttons prices d)) = page d.
Proof.
  revert prices d. induction buttons as [|b rest IH]; intros prices d; simpl.
  - reflexivity.
  - unfold bind. pose proof (read_button_page b prices d) as Hb.
    destruct (read_button b prices d) as [[p1|e] d1]; simpl in *.
    + now rewrite IH.
    + assumption.
Qed.

(** X10: once the product's detail page has opened, the shared browser is
    left on that page when the call returns, whether the prices were read
    or the call fell back to the empty mapping; the site it browses is the
    same as before. *)
Theorem parse_hdd_block_prices_stays_on_page product_soup w driver href pg :
  getitem_of (select_one (ByClass "title") product_soup) "href" = Ok href ->
  get_driver w = Some driver ->
  site driver (urljoin BASE_URL href) = Some pg ->
  exists driver',
    _driver (snd (parse_hdd_block_prices product_soup w)) = Some driver'
    /\ page driver' = Some pg
    /\ site driver' = site driver
    /\ session (snd (parse_hdd_block_prices product_soup w)) = session w.
Proof.
  intros Hhref Hdrv Hsite.
  unfold parse_hdd_block_prices, parse_hdd_block_prices_try.
  rewrite Hhref, Hdrv.
  pose proof (visit_site (urljoin BASE_URL href) driver) as Hs.
  assert (Hp : page (snd (visit (urljoin BASE_URL href) driver)) = Some pg).
  { unfold visit, bind, Browser.get, find_swatches_buttons.
    rewrite Hsite. simpl.
    destruct (swatches pg) as [buttons|]; simpl; [|reflexivity].
    now rewrite for_buttons_page. }
  destruct (visit _ driver) as [[prices|e] d']; simpl in *;
    exists d'; repeat split; assumption.
Qed.

Lemma parse_hdd_block_prices_stays_on_page_witness :
  exists driver',
    _driver (snd (parse_hdd_block_prices (Fixtures.laptop "1")
                    (Fixtures.world
                       (Fixtures.site_with Fixtures.second_price_unreadable)
                       Fixtures.three_pages))) = Some driver'
    /\ page driver'
       = Some (mkDetailPage (Some Fixtures.second_price_unreadable)
                            (Some "$295.99"))
    /\ site driver' = Fixtures.site_with Fixtures.second_price_unreadable
    /\ session (snd (parse_hdd_block_prices (Fixtures.laptop "1")
                       (Fixtures.world
                          (Fixtures.site_with Fixtures.second_price_unreadable)
                          Fixtures.three_pages)))
       = Fixtures.three_pages.
Proof.
  apply (parse_hdd_block_prices_stays_on_page (Fixtures.laptop "1")
           (Fixtures.world (Fixtures.site_with Fixtures.second_price_unreadable)
                           Fixtures.three_pages)
           (Fixtures.browser (Fixtures.site_with Fixtures.second_price_unreadable))
           "/test-sites/e-commerce/static/product/1"
           (mkDetailPage (Some Fixtures.second_price_unreadable)
                         (Some "$295.99"))); reflexivity.
Defined.

End PriceExtractor.

(** ** A run without a driver *)

Section WithoutDriver.

Import Soup Browser Scraper Spec Program Vocabulary.

Lemma parse_hdd_block_prices_no_driver product_soup w :
  _driver w = None -> parse_hdd_block_prices product_soup w = (∅, w).
Proof.
  intros H. unfold parse_hdd_block_prices, parse_hdd_block_prices_try, get_driver.
  destruct (getitem_of _ _) as [href|e]; [|reflexivity].
  now rewrite H.
Qed.

Lemma build_product_additional_info product hdd_prices p :
  build_product product hdd_prices = Ok p ->
  additional_info p = {[ "hdd_prices" := hdd_prices ]}.
Proof.
  intros H. unfold build_product, rbind in H.
  repeat match type of H with
         | context [match ?r with Ok _ => _ | Raise _ => _ end] =>
             destruct r; try discriminate
         end.
  now injection H as <-.
Qed.

Lemma parse_each_no_driver products w :
  _driver w = None ->
  snd (parse_each products w) = w
  /\ forall ps, fst (parse_each products w) = Ok ps -> Forall no_prices ps.
Proof.
  intros Hw. induction products as [|b rest [IHw IHp]]; simpl.
  - split; [reflexivity|]. unfold ret. simpl. intros ps [= <-]. constructor.
  - unfold bind, parse_single_product.
    rewrite (parse_hdd_block_prices_no_driver b w Hw).
    destruct (build_product b ∅) as [p|e] eqn:Hb; simpl.
    + destruct (parse_each rest w) as [[ps'|e] w1]; simpl in *.
      * split; [assumption|]. intros ps [= <-]. constructor.
        -- now apply (build_product_additional_info b).
        -- now apply IHp.
      * split; [assumption|discriminate].
    + split; [reflexivity|discriminate].
Qed.

Lemma for_pages_no_driver pages :
  forall all_products w,
  _driver w = None ->
  Forall no_prices all_products ->
  snd (for_pages pages all_products w) = w
  /\ forall result, fst (for_pages pages all_products w) = Ok result ->
                    Forall no_prices result.
Proof.
  induction pages as [|i rest IH]; intros all_products w Hw Hall; simpl.
  - split; [reflexivity|]. unfold ret. simpl. now intros result [= <-].
  - unfold bind, session_get, lift.
    destruct (session w LAPTOP_URL (Some i)) as [r|e]; simpl;
      [|split; [reflexivity|discriminate]].
    destruct (Http.raise_for_status r) as [[]|e]; simpl;
      [|split; [reflexivity|discriminate]].
    unfold get_single_page_products.
    destruct (parse_each_no_driver
                (select (ByClass "card-body") (Http.content r)) w Hw)
      as [Hsame Hps].
    destruct (parse_each _ w) as [[ps|e] w1]; simpl in *; subst w1;
      [|split; [reflexivity|discriminate]].
    apply IH; [assumption|].
    apply Forall_app. split; [assumption|]. now apply Hps.
Qed.

(** X11: when [set_driver] was never called, the run still goes through:
    no browser is touched, the module state is left as it was, and every
    product returned carries the empty price mapping under
    ["hdd_prices"]. *)
Theorem get_laptop_page_products_without_driver w :
  _driver w = None ->
  snd (get_laptop_page_products w) = w
  /\ Forall (fun p => additional_info p = {[ "hdd_prices" := ∅ ]})
       (fst (get_laptop_page_products w)).
Proof.
  intros Hw.
  unfold get_laptop_page_products, get_laptop_page_products_try,
    bind, session_get, lift.
  destruct (session w LAPTOP_URL None) as [first|e]; simpl;
    [|split; [reflexivity|constructor]].
  destruct (Http.raise_for_status first) as [[]|e]; simpl;
    [|split; [reflexivity|constructor]].
  unfold get_single_page_products.
  destruct (parse_each_no_driver
              (select (ByClass "card-body") (Http.content first)) w Hw)
    as [Hsame Hps].
  destruct (parse_each _ w) as [[ps|e] w1]; simpl in *; subst w1;
    [|split; [reflexivity|constructor]].
  destruct (get_num_pages (Http.content first)) as [N|e]; simpl;
    [|split; [reflexivity|constructor]].
  destruct (for_pages_no_driver (range 2 (N + 1)) ps w Hw (Hps ps eq_refl))
    as [Hsame' Hres].
  destruct (for_pages _ ps w) as [[result|e] w2]; simpl in *; subst w2.
  - split; [reflexivity|]. now apply Hres.
  - split; [reflexivity|constructor].
Qed.

Lemma get_laptop_page_products_without_driver_witness :
  snd (get_laptop_page_products (no_driver Fixtures.three_pages))
  = no_driver Fixtures.three_pages
  /\ Forall (fun p => additional_info p = {[ "hdd_prices" := ∅ ]})
       (fst (get_laptop_page_products (no_driver Fixtures.three_pages)))
  /\ length (fst (get_laptop_page_products (no_driver Fixtures.three_pages)))
     = 6%nat.
Proof.
  destruct (get_laptop_page_products_without_driver
              (no_driver Fixtures.three_pages) eq_refl) as [H1 H2].
  split; [exact H1|]. split; [exact H2|]. vm_compute. reflexivity.
Defined.

End WithoutDriver.

(** ** More on the retry configuration *)

Section RetryMore.

Import Http.

Lemma is_retry_not_forced (r : Retry) status :
  status_forcelist r = status_forcelist retry_strategy ->
  ~ In status (status_forcelist retry_strategy) ->
  is_retry r "GET" status false = false.
Proof.
  intros Hs Hnot. unfold is_retry. rewrite Hs.
  destruct (existsb (Z.eqb status) (status_forcelist retry_strategy)) eqn:E.
  - apply existsb_exists in E as (x & Hx & ->%Z.eqb_eq). contradiction.
  - rewrite andb_false_r. apply andb_false_r.
Qed.

(** X12: a GET whose first [j] answers, for [j] up to 3, carry a listed
    status and no Retry-After header, and whose next answer carries
    another status and no such header either, is answered with that
    status after [j + 1] requests; the waits before the retries are the
    first [j] of 0, 2 and 4 seconds. *)
Theorem retry_strategy_recovers (server : nat -> Answer) (j : nat) :
  (j <= 3)%nat ->
  (forall n, (n < j)%nat ->
             In (status (server n)) (status_forcelist retry_strategy)
             /\ retry_after (server n) = None) ->
  ~ In (status (server j)) (status_forcelist retry_strategy) ->
  retry_after (server j) = None ->
  send retry_strategy "GET" server
  = mkOutcome (S j) (firstn j [0; 2; 4]) (Ok (status (server j))).
Proof.
  intros Hj Hbad Hgood Hplain. unfold send. simpl.
  assert (H0 : (0 < j)%nat -> retry_after (server 0%nat) = None
                             /\ In (status (server 0%nat))
                                   (status_forcelist retry_strategy))
    by (intros H; destruct (Hbad 0%nat H); auto).
  assert (H1 : (1 < j)%nat -> retry_after (server 1%nat) = None
                             /\ In (status (server 1%nat))
                                   (status_forcelist retry_strategy))
    by (intros H; destruct (Hbad 1%nat H); auto).
  assert (H2 : (2 < j)%nat -> retry_after (server 2%nat) = None
                             /\ In (status (server 2%nat))
                                   (status_forcelist retry_strategy))
    by (intros H; destruct (Hbad 2%nat H); auto).
  destruct j as [|[|[|[|j]]]]; [| | | |lia].
  - rewrite Hplain, is_retry_not_forced by (reflexivity || assumption).
    reflexivity.
  - destruct (H0 ltac:(lia)) as [E0 I0].
    rewrite E0, is_retry_forced by (reflexivity || assumption). simpl.
    unfold sleep_time. rewrite E0. simpl.
    rewrite Hplain, is_retry_not_forced by (reflexivity || assumption).
    reflexivity.
  - destruct (H0 ltac:(lia)) as [E0 I0]. destruct (H1 ltac:(lia)) as [E1 I1].
    rewrite E0, is_retry_forced by (reflexivity || assumption). simpl.
    rewrite E1, is_retry_forced by (reflexivity || assumption). simpl.
    unfold sleep_time. rewrite E0, E1. simpl.
    rewrite Hplain, is_retry_not_forced by (reflexivity || assumption).
    reflexivity.
  - destruct (H0 ltac:(lia)) as [E0 I0]. destruct (H1 ltac:(lia)) as [E1 I1].
    destruct (H2 ltac:(lia)) as [E2 I2].
    rewrite E0, is_retry_forced by (reflexivity || assumption). simpl.
    rewrite E1, is_retry_forced by (reflexivity || assumption). simpl.
    rewrite E2, is_retry_forced by (reflexivity || assumption). simpl.
    unfold sleep_time. rewrite E0, E1, E2. simpl.
    rewrite Hplain, is_retry_not_forced by (reflexivity || assumption).
    reflexivity.
Qed.

Lemma retry_strategy_recovers_witness :
  send retry_strategy "GET" (without_headers (Vocabulary.recovering 2))
  = mkOutcome 3 [0; 2] (Ok 200).
Proof.
  apply (retry_strategy_recovers (without_headers (Vocabulary.recovering 2)) 2).
  - lia.
  - intros n Hn.
    destruct n as [|[|n]]; [split; [simpl; auto | reflexivity]..|lia].
  - simpl. intuition discriminate.
  - reflexivity.
Defined.

(** X13: only GET, in whatever letter case, is retried: a request whose
    method in upper case is not GET goes out once and its answer is
    returned as it is, whatever its status and headers. *)
Theorem retry_strategy_get_only (method : string) (server : nat -> Answer) :
  Py.upper method <> "GET" ->
  send retry_strategy method server
  = mkOutcome 1 [] (Ok (status (server 0%nat))).
Proof.
  intros Hm. unfold send. simpl. unfold is_retry, is_method_retryable. simpl.
  apply String.eqb_neq in Hm. rewrite Hm. reflexivity.
Qed.

Lemma retry_strategy_get_only_witness :
  send retry_strategy "post" (fun _ => mkAnswer 503 (Some 5))
  = mkOutcome 1 [] (Ok 503).
Proof.
  apply (retry_strategy_get_only "post" (fun _ => mkAnswer 503 (Some 5))).
  vm_compute. discriminate.
Defined.

(** The method is upper-cased: [get] is retried like [GET]; a Retry-After
    delay replaces the backoff; a 413 that carries the header is retried
    while the budget lasts and is then returned. *)
Example send_examples :
  send retry_strategy "get" (without_headers (fun _ => 503))
  = mkOutcome 4 [0; 2; 4] (Raise RequestException)
  /\ send retry_strategy "GET" (fun _ => mkAnswer 503 (Some 7))
     = mkOutcome 4 [7; 7; 7] (Raise RequestException)
  /\ send retry_strategy "GET" (fun _ => mkAnswer 413 (Some 7))
     = mkOutcome 4 [7; 7; 7] (Ok 413)
  /\ send retry_strategy "GET" (without_headers (fun _ => 413))
     = mkOutcome 1 [] (Ok 413).
Proof. repeat split. Qed.

End RetryMore.

(** ** More on parse_single_product *)

Section ProductMore.

Import Soup Scraper Spec Program Vocabulary.

(** X14: the keyword arguments are evaluated in source order, so the title
    decides first: a block without a title element raises TypeError, one
    whose title element has no [title] attribute raises KeyError, and one
    with a title but no description element raises AttributeError,
    whatever the rest of the block holds. *)
Theorem parse_single_product_first_rule product w :
  (select_one (ByClass "title") product = None ->
   fst (parse_single_product product w) = Raise TypeError)
  /\ (forall t,
        select_one (ByClass "title") product = Some t ->
        Soup.get "title" t = None ->
        fst (parse_single_product product w) = Raise KeyError)
  /\ (forall t a,
        select_one (ByClass "title") product = Some t ->
        Soup.get "title" t = Some a ->
        select_one (ByClass "description") product = None ->
        fst (parse_single_product product w) = Raise AttributeError).
Proof.
  rewrite parse_single_product_fst.
  unfold build_product, getitem_of, text_of, getitem.
  split; [|split].
  - intros ->. reflexivity.
  - intros t -> ->. reflexivity.
  - intros t a -> -> ->. reflexivity.
Qed.

Lemma parse_single_product_first_rule_witness :
  fst (parse_single_product (Element "div" [("class", "card-body")] [])
         (Fixtures.world Fixtures.plain_site Fixtures.three_pages))
  = Raise TypeError
  /\ fst (parse_single_product
            (Element "div" [("class", "card-body")]
               [Element "a" [("class", "title"); ("href", "/p/1")] []])
            (Fixtures.world Fixtures.plain_site Fixtures.three_pages))
     = Raise KeyError
  /\ fst (parse_single_product
            (Element "div" [("class", "card-body")]
               [Element "a" [("class", "title"); ("title", "T"); ("href", "/p/1")] []])
            (Fixtures.world Fixtures.plain_site Fixtures.three_pages))
     = Raise AttributeError.
Proof.
  split; [|split].
  - apply (proj1 (parse_single_product_first_rule _ _)). reflexivity.
  - apply (proj1 (proj2 (parse_single_product_first_rule _ _))
             (Element "a" [("class", "title"); ("href", "/p/1")] []));
      reflexivity.
  - apply (proj2 (proj2 (parse_single_product_first_rule _ _))
             (Element "a" [("class", "title"); ("title", "T"); ("href", "/p/1")] [])
             "T"); reflexivity.
Defined.

End ProductMore.

(** ** main *)

Section Main.

Import Soup Scraper Spec Program Vocabulary.

Lemma first_fetch_failure w :
  fetch_fails w None -> fst (get_laptop_page_products w) = [].
Proof.
  intros Hfail. rewrite get_laptop_page_products_fst.
  unfold get_laptop_page_products_try, bind, session_get, lift.
  unfold fetch_fails in Hfail.
  destruct (session w LAPTOP_URL None) as [r|e]; simpl; [|reflexivity].
  destruct Hfail as [e ->]. reflexivity.
Qed.

(** X15: when Chrome starts, products.csv can be opened and the run with
    the new driver installed raises nothing, the file ends up holding the
    header and one row per product of the run, in the order of the run;
    the first cell of each row is that product's title. *)
Theorem main_writes_every_product m driver u all_products :
  chrome m = Ok driver ->
  open_csv m = Ok u ->
  fst (get_laptop_page_products_try (set_driver driver (world m)))
  = Ok all_products ->
  exists rows,
    products_csv (main m) = Some (map VStr PRODUCT_FIELDS :: rows)
    /\ length rows = length all_products
    /\ map (fun row => head row) rows
       = map (fun p => Some (VStr (title p))) all_products
    /\ session_closed (main m) = true.
Proof.
  intros Hc Ho Hrun. unfold main, main_try. rewrite Hc, Ho.
  pose proof (get_laptop_page_products_fst (set_driver driver (world m))) as Hfst.
  rewrite Hrun in Hfst.
  destruct (get_laptop_page_products _) as [products w']. simpl in *.
  subst products. exists (map astuple all_products).
  split; [reflexivity|]. split; [apply length_map|].
  split; [|reflexivity]. rewrite map_map. reflexivity.
Qed.

Lemma main_writes_every_product_witness :
  exists rows,
    products_csv
      (main (machine (Fixtures.world Fixtures.plain_site Fixtures.three_pages) []))
    = Some (map VStr PRODUCT_FIELDS :: rows)
    /\ length rows = 6%nat
    /\ map (fun row => head row) rows
       = map (fun p => Some (VStr (title p))) Fixtures.six_products
    /\ session_closed
         (main (machine (Fixtures.world Fixtures.plain_site Fixtures.three_pages) []))
       = true.
Proof.
  apply (main_writes_every_product
           (machine (Fixtures.world Fixtures.plain_site Fixtures.three_pages) [])
           (Fixtures.browser Fixtures.plain_site) tt Fixtures.six_products
           eq_refl eq_refl).
  vm_compute. reflexivity.
Defined.

(** X16: when Chrome starts and products.csv can be opened but the first
    listing page cannot be fetched, [main] still writes the file: whatever
    an earlier run had stored is replaced by the header row alone; the
    browser is quit and the session closed. *)
Theorem main_overwrites_on_failure m driver u :
  chrome m = Ok driver ->
  open_csv m = Ok u ->
  fetch_fails (world m) None ->
  products_csv (main m) = Some [map VStr PRODUCT_FIELDS]
  /\ chrome_running (main m) = false
  /\ session_closed (main m) = true.
Proof.
  intros Hc Ho Hfail. unfold main, main_try. rewrite Hc, Ho.
  assert (Hempty : fst (get_laptop_page_products (set_driver driver (world m)))
                   = [])
    by (apply first_fetch_failure; exact Hfail).
  destruct (get_laptop_page_products _) as [products w']. simpl in *.
  subst products. repeat split.
Qed.

Lemma main_overwrites_on_failure_witness :
  products_csv
    (main (machine (Fixtures.world Fixtures.plain_site Fixtures.nothing_reachable)
                   (write_products_to_csv Fixtures.six_products)))
  = Some [map VStr PRODUCT_FIELDS].
Proof.
  apply (main_overwrites_on_failure
           (machine (Fixtures.world Fixtures.plain_site Fixtures.nothing_reachable)
                    (write_products_to_csv Fixtures.six_products))
           (Fixtures.browser Fixtures.plain_site) tt eq_refl eq_refl I).
Defined.

(** X17: when Chrome does not start, or products.csv cannot be opened,
    [main] does not raise and leaves the file as it was; the session is
    closed all the same, and without a browser nothing is scraped at
    all. *)
Theorem main_keeps_file_on_error m :
  raises (chrome m) \/ raises (open_csv m) ->
  products_csv (main m) = products_csv m
  /\ session_closed (main m) = true
  /\ (raises (chrome m) -> world (main m) = world m).
Proof.
  intros H. unfold main, main_try.
  destruct (chrome m) as [driver|e] eqn:Hc.
  - destruct H as [[e He]|[e He]]; [discriminate|]. rewrite He.
    destruct (get_laptop_page_products _) as [products w']. simpl.
    repeat split. intros [e' He']. discriminate.
  - simpl. repeat split.
Qed.

Lemma main_keeps_file_on_error_witness :
  products_csv
    (main (mkMachine (Fixtures.world Fixtures.plain_site Fixtures.three_pages)
                     (Raise WebDriverException) (Ok tt) None false false))
  = None.
Proof.
  apply (main_keeps_file_on_error
           (mkMachine (Fixtures.world Fixtures.plain_site Fixtures.three_pages)
                      (Raise WebDriverException) (Ok tt) None false false)).
  left. exists WebDriverException. reflexivity.
Defined.

End Main.
